(** * LocationIQ-Pro: the location data aggregation and scoring engine

    A shallow embedding of the Python services
    [app/services/infrastructure_analyzer.py], [app/services/cache_service.py],
    [app/services/google_places.py], [app/services/ibge_service.py] and of the
    admin endpoint [app/api/api_v1/endpoints/admin.py].

    Conventions of the embedding:
    - Python [float] arithmetic is modelled by exact rational arithmetic on
      [Q]; equality of scores is [Qeq] (written [==]).
    - a Python [str] is a [string]; a [dict] with string keys whose order
      matters (iteration with [.items()]) is an association list, a [dict]
      used as a store is a [gmap string _];
    - [async] functions are modelled by their results: an awaited call either
      returns a value or raises, and what it does depends on the outcome of the
      network call it makes, which is an explicit argument. *)

From Stdlib Require Import QArith Qminmax Lqa ZArith Lia List Sorted Permutation.
From Stdlib Require Import Qabs DecimalString DecimalZ DecimalPos Ascii String.
From stdpp Require Import gmap strings list fin_maps.

Open Scope string_scope.

(** ** Python dictionaries with ordered string keys *)

Module PyDict.

Fixpoint get {V : Type} (d : list (string * V)) (k : string) : option V :=
  match d with
  | [] => None
  | (k', v) :: rest => if String.eqb k' k then Some v else get rest k
  end.

(** [d.get(k, dflt)] *)
Definition get_default {V : Type} (d : list (string * V)) (k : string) (dflt : V) : V :=
  match get d k with
  | Some v => v
  | None => dflt
  end.

Definition keys {V : Type} (d : list (string * V)) : list string := map fst d.

End PyDict.

(** ** 4.1 Proximity curve: [InfrastructureAnalyzer.calculate_proximity_score] *)

Module Proximity.

Open Scope Q_scope.

(** The local table [ideal_distances] (metres). *)
Definition ideal_distances : list (string * Q) :=
  [ ("healthcare", 1000);
    ("education", 800);
    ("transportation", 500);
    ("shopping", 600);
    ("services", 1200);
    ("recreation", 1500);
    ("dining", 400) ].

(** [ideal_dist = ideal_distances.get(category, 1000)] *)
Definition ideal_dist_of (category : string) : Q :=
  PyDict.get_default ideal_distances category 1000.

(** The body of [calculate_proximity_score], branch for branch. *)
Definition calculate_proximity_score (distance : Q) (category : string) : Q :=
  let ideal_dist := ideal_dist_of category in
  if Qle_bool distance ideal_dist then
    10
  else if Qle_bool distance (ideal_dist * 2) then
    10 - (5 * (distance - ideal_dist) / ideal_dist)
  else if Qle_bool distance (ideal_dist * 4) then
    5 - (3 * (distance - ideal_dist * 2) / (ideal_dist * 2))
  else
    Qmax 0 (2 - (distance / (ideal_dist * 10))).

(** The curve as section 4.1 of the specification words it, for an ideal
    distance [ideal]: the last piece subtracts the breakpoint [4 * ideal]. *)
Definition spec_proximity_score (distance ideal : Q) : Q :=
  if Qle_bool distance ideal then
    10
  else if Qle_bool distance (2 * ideal) then
    10 - 5 * ((distance - ideal) / ideal)
  else if Qle_bool distance (4 * ideal) then
    5 - 3 * ((distance - 2 * ideal) / (2 * ideal))
  else
    Qmax 0 (2 - (distance - 4 * ideal) / (10 * ideal)).

(** [calculate_accessibility_score], the other distance curve of the
    analyzer; a facility is given by its ['distance'] entry, if it has one
    ([facility.get('distance', 1000)]). *)
Definition calculate_accessibility_score (facilities : list (option Q)) : Q :=
  match facilities with
  | [] => 0
  | _ :: _ =>
      let total_distance :=
        fold_left (fun acc facility =>
                     acc + match facility with Some d => d | None => 1000 end)
          facilities 0 in
      let avg_distance :=
        total_distance / inject_Z (Z.of_nat (length facilities)) in
      if Qle_bool avg_distance 300 then
        10
      else if Qle_bool avg_distance 600 then
        8 + (600 - avg_distance) / 300 * 2
      else if Qle_bool avg_distance 1000 then
        6 + (1000 - avg_distance) / 400 * 2
      else if Qle_bool avg_distance 2000 then
        3 + (2000 - avg_distance) / 1000 * 3
      else
        Qmax 0 (3 - (avg_distance - 2000) / 1000)
  end.

(** The curve for ideal distance 1, to which every other one reduces by
    scaling the distance. *)
Definition unit_curve (u : Q) : Q :=
  if Qle_bool u 1 then 10
  else if Qle_bool u 2 then 10 - 5 * (u - 1)
  else if Qle_bool u 4 then 5 - (3 # 2) * (u - 2)
  else Qmax 0 (2 - (1 # 10) * u).

End Proximity.

(** ** 4.2 Category classifier: [InfrastructureAnalyzer.categorize_place] *)

Module Classifier.

(** [self.place_type_mapping], in declaration order (a Python [dict] iterates
    in insertion order). *)
Definition place_type_mapping : list (string * list string) :=
  [ ("healthcare",
      ["hospital"; "pharmacy"; "doctor"; "dentist";
       "veterinary_care"; "physiotherapist"]);
    ("education",
      ["school"; "university"; "library"; "secondary_school";
       "primary_school"; "kindergarten"]);
    ("transportation",
      ["bus_station"; "subway_station"; "train_station";
       "transit_station"; "airport"]);
    ("shopping",
      ["supermarket"; "grocery_or_supermarket"; "shopping_mall";
       "clothing_store"; "electronics_store"; "hardware_store"]);
    ("services",
      ["bank"; "post_office"; "local_government_office";
       "police"; "fire_station"; "courthouse"]);
    ("recreation",
      ["park"; "gym"; "amusement_park"; "zoo"; "museum";
       "movie_theater"; "night_club"; "stadium"]);
    ("dining",
      ["restaurant"; "meal_takeaway"; "cafe"; "bar";
       "bakery"; "meal_delivery"]) ].

(** [place_type in types] *)
Definition type_in (place_type : string) (types : list string) : bool :=
  existsb (String.eqb place_type) types.

(** The inner loop [for place_type in place_types: if place_type in types:
    return category]: does it return? *)
Fixpoint inner_loop (place_types types : list string) : bool :=
  match place_types with
  | [] => false
  | place_type :: rest =>
      if type_in place_type types then true else inner_loop rest types
  end.

(** The outer loop [for category, types in mapping.items()]. *)
Fixpoint categorize_with (mapping : list (string * list string))
    (place_types : list string) : option string :=
  match mapping with
  | [] => None
  | (category, types) :: rest =>
      if inner_loop place_types types then Some category
      else categorize_with rest place_types
  end.

Definition categorize_place (place_types : list string) : option string :=
  categorize_with place_type_mapping place_types.

(** The input tags and a category's recognised tags have a tag in common. *)
Definition intersects (place_types types : list string) : Prop :=
  exists t, In t place_types /\ In t types.

End Classifier.

(** ** 4.5/4.6 Scoring: [InfrastructureAnalyzer.__init__] and
    [analyze_infrastructure] *)

Module Scoring.

Open Scope Q_scope.

(** The literal assigned to [self.infrastructure_weights]. *)
Definition infrastructure_weights : list (string * Q) :=
  [ ("healthcare", 0.25);
    ("education", 0.20);
    ("transportation", 0.15);
    ("shopping", 0.15);
    ("services", 0.10);
    ("recreation", 0.10);
    ("dining", 0.05) ].

Record InfrastructureAnalyzer := {
  self_infrastructure_weights : list (string * Q);
  self_place_type_mapping : list (string * list string)
}.

(** What calling a constructor does: it yields the object or raises. *)
Inductive construction :=
| Constructed (self : InfrastructureAnalyzer)
| Raises (error : string).

(** A call of [InfrastructureAnalyzer] with the positional arguments [args]
    and the keyword arguments [kwargs]. The signature is [__init__(self)]: a call that passes a positional or a keyword argument
    raises [TypeError] before the body runs, whatever the argument is (here a
    weight table, the configuration one would pass). The body is two
    assignments of literals; nothing reads the weights back. *)
Definition __init__ (args : list (list (string * Q)))
    (kwargs : list (string * list (string * Q))) : construction :=
  match args, kwargs with
  | [], [] =>
      Constructed {| self_infrastructure_weights := infrastructure_weights;
                     self_place_type_mapping := Classifier.place_type_mapping |}
  | _, _ => Raises "TypeError"
  end.

Definition weight_sum (weights : list (string * Q)) : Q :=
  fold_left (fun acc kv => acc + snd kv) weights 0.

(** The check the specification asks for: [|sum - 1.0| <= 1e-6]. *)
Definition weights_valid (weights : list (string * Q)) : Prop :=
  Qabs.Qabs (weight_sum weights - 1) <= 1 # 1000000.

(** A weight table in which healthcare weighs 0.30, so that the sum is
    1.05. *)
Definition unbalanced_weights : list (string * Q) :=
  [ ("healthcare", 0.30); ("education", 0.20); ("transportation", 0.15);
    ("shopping", 0.15); ("services", 0.10); ("recreation", 0.10);
    ("dining", 0.05) ].

(** A place returned by the nearby search, with [p_distance] the haversine
    distance [calculate_distance(latitude, longitude, place_lat, place_lng)]
    from the centre of the request (trigonometric, taken as given). *)
Record place := {
  p_name : string;
  p_types : list string;
  p_distance : Q;
  p_rating : Q
}.

(** The dictionary appended to [category_scores[category]]. *)
Record scored_place := {
  name : string;
  distance : Q;
  score : Q;
  rating : Q
}.

Definition scored (p : place) (category : string) : scored_place :=
  {| name := p_name p;
     distance := p_distance p;
     score := Proximity.calculate_proximity_score (p_distance p) category;
     rating := p_rating p |}.

(** [category_scores[category].append(x)] *)
Definition append_to (category : string) (x : scored_place)
    (category_scores : list (string * list scored_place))
  : list (string * list scored_place) :=
  map (fun kv => if String.eqb (fst kv) category
                 then (fst kv, (snd kv ++ [x])%list) else kv) category_scores.

(** The first loop of [analyze_infrastructure]: classify each place and file
    it under its category; unclassified places are dropped. *)
Definition collect (nearby_places : list place)
  : list (string * list scored_place) :=
  fold_left
    (fun category_scores p =>
       match Classifier.categorize_place (p_types p) with
       | Some category => append_to category (scored p category) category_scores
       | None => category_scores
       end)
    nearby_places
    (map (fun category => (category, [])) (PyDict.keys infrastructure_weights)).

(** [sorted(places, key=lambda x: x['distance'])]: a stable sort, here by
    insertion. *)
Fixpoint insert_by_distance (x : scored_place) (l : list scored_place)
  : list scored_place :=
  match l with
  | [] => [x]
  | y :: l' =>
      if Qle_bool (distance x) (distance y) then x :: l
      else y :: insert_by_distance x l'
  end.

Fixpoint sorted_by_distance (places : list scored_place) : list scored_place :=
  match places with
  | [] => []
  | x :: rest => insert_by_distance x (sorted_by_distance rest)
  end.

(** [sum(f(p) for p in l)] *)
Definition sum_of (f : scored_place -> Q) (l : list scored_place) : Q :=
  fold_left (fun acc p => acc + f p) l 0.

Definition len (l : list scored_place) : Q := inject_Z (Z.of_nat (length l)).

(** The local variables of the second loop, for a category with [places]. *)
Definition top_places (places : list scored_place) : list scored_place :=
  firstn 5 (sorted_by_distance places).

Definition avg_score (places : list scored_place) : Q :=
  sum_of score (top_places places) / len (top_places places).

Definition availability_bonus (places : list scored_place) : Q :=
  Qmin 1 (len places / 3) * 0.5.

Definition final_score (places : list scored_place) : Q :=
  Qmin 10 (avg_score places + availability_bonus places).

(** An entry of [detailed_analysis]; [average_distance] is [None] for
    [float('inf')]. *)
Record category_analysis := {
  ca_score : Q;
  ca_count : nat;
  ca_top_places : list scored_place;
  ca_average_distance : option Q
}.

Definition analyze_category (places : list scored_place) : category_analysis :=
  match places with
  | [] =>
      {| ca_score := 0; ca_count := 0; ca_top_places := [];
         ca_average_distance := None |}
  | _ :: _ =>
      {| ca_score := final_score places;
         ca_count := length places;
         ca_top_places := top_places places;
         ca_average_distance :=
           Some (sum_of distance (top_places places) / len (top_places places)) |}
  end.

(** [detailed_analysis] of [analyze_infrastructure]. *)
Definition detailed_analysis (nearby_places : list place)
  : list (string * category_analysis) :=
  map (fun kv => (fst kv, analyze_category (snd kv))) (collect nearby_places).

(** [final_scores] of [analyze_infrastructure]. *)
Definition final_scores (nearby_places : list place) : list (string * Q) :=
  map (fun kv => (fst kv, ca_score (snd kv))) (detailed_analysis nearby_places).

(** The average proximity score of all the points of a category, which the
    specification names as the base score. *)
Definition average_of_all (places : list scored_place) : Q :=
  sum_of score places / len places.

(** [category] is the category [categorize_place] gives to [p]. *)
Definition classified_as (category : string) (p : place) : bool :=
  match Classifier.categorize_place (p_types p) with
  | Some c => String.eqb c category
  | None => false
  end.

(** The classified points of a category, in the order the search returned
    them. *)
Definition points_of (category : string) (nearby_places : list place)
  : list scored_place :=
  map (fun p => scored p category)
    (List.filter (classified_as category) nearby_places).

Definition by_distance (x y : scored_place) : Prop := distance x <= distance y.

(** Six pharmacies and clinics: five within the ideal kilometre and one three
    kilometres away. *)
Definition six_clinics : list place :=
  [ {| p_name := "A"; p_types := ["pharmacy"]; p_distance := 100; p_rating := 4 |};
    {| p_name := "B"; p_types := ["doctor"]; p_distance := 3000; p_rating := 5 |};
    {| p_name := "C"; p_types := ["hospital"]; p_distance := 200; p_rating := 4 |};
    {| p_name := "D"; p_types := ["dentist"]; p_distance := 300; p_rating := 3 |};
    {| p_name := "E"; p_types := ["pharmacy"]; p_distance := 400; p_rating := 4 |};
    {| p_name := "F"; p_types := ["store"; "pharmacy"]; p_distance := 500; p_rating := 4 |} ].

End Scoring.

(** ** JSON values and Python conversions *)

#[local] Set Warnings "-register-all".

Inductive json :=
| JNull
| JBool (b : bool)
| JInt (n : Z)
| JFloat (q : Q)
| JStr (s : string)
| JList (l : list json)
| JDict (d : list (string * json)).

(** [str(n)] for an [int]. *)
Definition str_of_int (n : Z) : string := NilZero.string_of_int (Z.to_int n).

(** Python truthiness of a decoded JSON value. *)
Definition truthy (v : json) : bool :=
  match v with
  | JNull => false
  | JBool b => b
  | JInt n => negb (n =? 0)%Z
  | JFloat q => negb (Qeq_bool q 0)
  | JStr s => negb (String.eqb s "")
  | JList l => match l with [] => false | _ :: _ => true end
  | JDict d => match d with [] => false | _ :: _ => true end
  end.

(** ** 4.3 Cache store: [CacheService] over Redis *)

Module Cache.

Open Scope Z_scope.

(** *** The Redis commands the service issues

    A database maps a key to its value and the instant it expires. The value
    is the dictionary itself: [json.dumps] on the way in and [json.loads] on
    the way out are taken to be inverse on JSON dictionaries, and a serialised
    dictionary is never the empty string. A key is expired once the clock has
    passed its expiry instant; an expired key is not seen by any command. *)

Record entry := {
  value : gmap string json;
  expires_at : Z
}.

Definition live (now : Z) (e : entry) : bool := now <=? expires_at e.

(** [GET key] *)
Definition redis_get (db : gmap string entry) (now : Z) (key : string)
  : option (gmap string json) :=
  match db !! key with
  | Some e => if live now e then Some (value e) else None
  | None => None
  end.

(** [SETEX key ttl value]: an error ([None]) unless [ttl] is positive. The
    expiry instant is kept in [Z]; a server keeps it in milliseconds in a
    signed 64-bit integer and answers otherwise for a [ttl] that does not
    fit there, so the command is modelled for the TTLs that fit
    ([CacheOps.expiry_fits]), as those of [TTL_SETTINGS] do at every instant
    a clock can show. *)
Definition redis_setex (db : gmap string entry) (now : Z) (key : string)
    (ttl : Z) (v : gmap string json) : option (gmap string entry) :=
  if ttl <=? 0 then None
  else Some (<[key := {| value := v; expires_at := now + ttl |}]> db).

(** Glob patterns with [*] as the only wildcard (the patterns built below
    are made of letters, digits, [:], [-] and [*]). *)
Fixpoint glob_match (pattern : string) : string -> bool :=
  match pattern with
  | EmptyString =>
      fun s => match s with EmptyString => true | String _ _ => false end
  | String c pattern' =>
      if Ascii.eqb c "*"%char then
        fix star (s : string) : bool :=
          glob_match pattern' s
          || match s with
             | EmptyString => false
             | String _ s' => star s'
             end
      else
        fun s =>
          match s with
          | EmptyString => false
          | String c' s' => Ascii.eqb c c' && glob_match pattern' s'
          end
  end.

(** A string without wildcard, which as a pattern matches only itself. *)
Fixpoint star_free (s : string) : bool :=
  match s with
  | EmptyString => true
  | String c s' => negb (Ascii.eqb c "*"%char) && star_free s'
  end.

Definition key_matches (now : Z) (pattern : string) (key : string) (e : entry)
  : bool :=
  glob_match pattern key && live now e.

(** [KEYS pattern] *)
Definition redis_keys (db : gmap string entry) (now : Z) (pattern : string)
  : list string :=
  map fst
    (List.filter (fun kv => key_matches now pattern (fst kv) (snd kv))
       (map_to_list db)).

(** [DEL key ...]: removes the keys and counts those that existed. *)
Fixpoint redis_del (db : gmap string entry) (now : Z) (keys : list string)
  : gmap string entry * Z :=
  match keys with
  | [] => (db, 0)
  | key :: rest =>
      let existed := match redis_get db now key with
                     | Some _ => 1
                     | None => 0
                     end in
      let r := redis_del (delete key db) now rest in
      (fst r, existed + snd r)
  end.

(** *** The service *)

Definition TTL_SETTINGS : list (string * Z) :=
  [ ("municipality_info", 24 * 60 * 60);
    ("population", 30 * 24 * 60 * 60);
    ("area", 365 * 24 * 60 * 60);
    ("density", 365 * 24 * 60 * 60);
    ("search_results", 7 * 24 * 60 * 60);
    ("complete_data", 24 * 60 * 60) ].

(** [settings.CACHE_TTL] of [app/core/config.py]. *)
Definition CACHE_TTL : Z := 3600.

(** [redis_client] is [None] until [initialize] connects, and again after a
    failed connection, which also clears [enabled]. *)
Record CacheService := {
  enabled : bool;
  redis_client : option (gmap string entry)
}.

Definition connected (db : gmap string entry) : CacheService :=
  {| enabled := true; redis_client := Some db |}.

Definition disabled : CacheService :=
  {| enabled := false; redis_client := None |}.

(** [_generate_key] *)
Definition _generate_key (prefix : string) (municipality_id : Z)
    (additional : string) : string :=
  let key := "ibge:" ++ prefix ++ ":" ++ str_of_int municipality_id in
  if negb (String.eqb additional "") then key ++ ":" ++ additional else key.

(** [get] *)
Definition get (self : CacheService) (now : Z) (key_type : string)
    (municipality_id : Z) (additional : string) : option (gmap string json) :=
  match enabled self, redis_client self with
  | true, Some db =>
      let key := _generate_key key_type municipality_id additional in
      redis_get db now key
  | _, _ => None
  end.

(** Stand-in for [datetime.utcnow().isoformat()]: the clock reading as a
    string. *)
Definition isoformat (now : Z) : string := str_of_int now.

(** [custom_ttl or self.TTL_SETTINGS.get(key_type, settings.CACHE_TTL)] *)
Definition ttl_for (key_type : string) (custom_ttl : option Z) : Z :=
  match custom_ttl with
  | Some n => if n =? 0 then PyDict.get_default TTL_SETTINGS key_type CACHE_TTL
              else n
  | None => PyDict.get_default TTL_SETTINGS key_type CACHE_TTL
  end.

(** [{**data, "_cached_at": ..., "_cache_ttl": ttl}] *)
Definition data_with_metadata (data : gmap string json) (now ttl : Z)
  : gmap string json :=
  <["_cache_ttl" := JInt ttl]> (<["_cached_at" := JStr (isoformat now)]> data).

(** [set]: the service afterwards and the returned flag. *)
Definition set (self : CacheService) (now : Z) (key_type : string)
    (municipality_id : Z) (data : gmap string json) (additional : string)
    (custom_ttl : option Z) : CacheService * bool :=
  match enabled self, redis_client self with
  | true, Some db =>
      let key := _generate_key key_type municipality_id additional in
      let ttl := ttl_for key_type custom_ttl in
      match redis_setex db now key ttl (data_with_metadata data now ttl) with
      | Some db' => ({| enabled := true; redis_client := Some db' |}, true)
      | None => (self, false)
      end
  | _, _ => (self, false)
  end.

(** [clear_municipality_cache]: the service afterwards and the count. *)
Definition clear_municipality_cache (self : CacheService) (now : Z)
    (municipality_id : Z) : CacheService * Z :=
  match enabled self, redis_client self with
  | true, Some db =>
      let pattern := "ibge:*:" ++ str_of_int municipality_id ++ "*" in
      let keys := redis_keys db now pattern in
      match keys with
      | [] => (self, 0)
      | _ :: _ =>
          let r := redis_del db now keys in
          ({| enabled := true; redis_client := Some (fst r) |}, snd r)
      end
  | _, _ => (self, 0)
  end.

(** A cache holding the population of municipality 330, the population and
    area of Itaperuna (3302205) and the population of São Paulo (3550308),
    none of them expiring before instant 1000. *)
Definition sample_payload (id : Z) : gmap string json :=
  {[ "municipality_id" := JInt id ]}.

Definition sample_db : gmap string entry :=
  <["ibge:population:330" := {| value := sample_payload 330; expires_at := 1000 |}]>
  (<["ibge:population:3302205" := {| value := sample_payload 3302205; expires_at := 1000 |}]>
  (<["ibge:area:3302205" := {| value := sample_payload 3302205; expires_at := 1000 |}]>
  (<["ibge:population:3550308" := {| value := sample_payload 3550308; expires_at := 1000 |}]>
   ∅))).

End Cache.

(** ** 4.4 Source gateway: [GooglePlacesService] *)

Module Gateway.

(** What the one [session.get] of a call does: the provider answers with an
    HTTP status and a decoded JSON object, the client raises
    [aiohttp.ClientError], or something else is raised (a timeout of the event
    loop, a body that is not JSON). *)
Inductive transport :=
| Response (status : Z) (result : list (string * json))
| ClientError (message : string)
| OtherError (message : string).

(** What awaiting a coroutine does. [HTTPException] carries its status code;
    its detail message is left out. *)
Inductive awaited (A : Type) :=
| Returns (a : A)
| RaisesHTTPException (status_code : Z)
| RaisesOther (message : string).
Arguments Returns {A} a.
Arguments RaisesHTTPException {A} status_code.
Arguments RaisesOther {A} message.

Record GooglePlacesService := {
  api_key : option string
}.

(** [not self.api_key]: [None] and the empty string are both falsy. *)
Definition no_api_key (self : GooglePlacesService) : bool :=
  match api_key self with
  | None => true
  | Some k => String.eqb k ""
  end.

(** [_make_request] *)
Definition _make_request (self : GooglePlacesService) (net : transport)
  : awaited (list (string * json)) :=
  if no_api_key self then
    Returns [ ("status", JStr "REQUEST_DENIED");
              ("error_message", JStr "No API key configured") ]
  else
    match net with
    | Response status result =>
        if negb (status =? 200)%Z then RaisesHTTPException status
        else Returns result
    | ClientError _ => RaisesHTTPException 500
    | OtherError message => RaisesOther message
    end.

(** [result.get("status") == "OK"] *)
Definition status_is_OK (result : list (string * json)) : bool :=
  match PyDict.get result "status" with
  | Some (JStr s) => String.eqb s "OK"
  | _ => false
  end.

(** A [string] holds the UTF-8 encoding of a Python [str]: a character is a
    leading byte and the continuation bytes (of the form [10xxxxxx]) that
    follow it. *)
Definition is_continuation (c : ascii) : bool :=
  match c with
  | Ascii _ _ _ _ _ _ b6 b7 => b7 && negb b6
  end.

Fixpoint continuation (s : string) : string :=
  match s with
  | EmptyString => EmptyString
  | String c s' =>
      if is_continuation c then String c (continuation s') else EmptyString
  end.

(** [result["results"][0]], for a truthy [result["results"]]: the first
    element of a list, the first character of a string; subscripting anything
    else raises. *)
Definition first_result (results : json) : awaited json :=
  match results with
  | JList (x :: _) => Returns x
  | JStr (String c s) => Returns (JStr (String c (continuation s)))
  | JDict _ => RaisesOther "KeyError"
  | _ => RaisesOther "TypeError"
  end.

(** The fixed record returned for an address when no key is configured. *)
Definition mock_geocode (address : string) : json :=
  JDict
    [ ("place_id", JStr "mock_place_id");
      ("formatted_address", JStr ("Mock result for: " ++ address));
      ("geometry",
        JDict [ ("location",
                  JDict [ ("lat", JFloat (-23.5505)); ("lng", JFloat (-46.6333)) ]) ]);
      ("address_components",
        JList
          [ JDict [ ("long_name", JStr "São Paulo");
                    ("types", JList [JStr "locality"]) ];
            JDict [ ("long_name", JStr "SP");
                    ("types", JList [JStr "administrative_area_level_1"]) ];
            JDict [ ("long_name", JStr "Brazil");
                    ("types", JList [JStr "country"]) ] ]) ].

(** [geocode_address]; [JNull] is Python's [None]. *)
Definition geocode_address (self : GooglePlacesService) (net : transport)
    (address : string) : awaited json :=
  if no_api_key self then Returns (mock_geocode address)
  else
    match _make_request self net with
    | Returns result =>
        match PyDict.get result "results" with
        | Some results =>
            if status_is_OK result && truthy results then first_result results
            else Returns JNull
        | None => Returns JNull
        end
    | RaisesHTTPException _ => Returns JNull
    | RaisesOther message => RaisesOther message
    end.

(** The two fixed places returned around a centre when no key is
    configured. *)
Definition mock_places (latitude longitude : Q) : list (list (string * json)) :=
  [ [ ("place_id", JStr "mock_hospital_1");
      ("name", JStr "Hospital Mock");
      ("types", JList [JStr "hospital"; JStr "health"]);
      ("geometry",
        JDict [ ("location",
                  JDict [ ("lat", JFloat (latitude + 0.001)%Q);
                          ("lng", JFloat (longitude + 0.001)%Q) ]) ]);
      ("rating", JFloat 4.2);
      ("vicinity", JStr "Rua Mock, 123") ];
    [ ("place_id", JStr "mock_school_1");
      ("name", JStr "Escola Mock");
      ("types", JList [JStr "school"; JStr "education"]);
      ("geometry",
        JDict [ ("location",
                  JDict [ ("lat", JFloat (latitude - 0.001)%Q);
                          ("lng", JFloat (longitude - 0.001)%Q) ]) ]);
      ("rating", JFloat 4.5);
      ("vicinity", JStr "Avenida Mock, 456") ] ].

(** [place_type in p["types"]] *)
Definition has_type (place_type : string) (p : list (string * json)) : bool :=
  match PyDict.get p "types" with
  | Some (JList types) =>
      existsb (fun t => match t with
                        | JStr s => String.eqb s place_type
                        | _ => false
                        end) types
  | _ => false
  end.

(** [get_nearby_places]; the result is a JSON list. *)
Definition get_nearby_places (self : GooglePlacesService) (net : transport)
    (latitude longitude : Q) (place_type : option string) (radius : Z)
    (keyword : option string) : awaited json :=
  if no_api_key self then
    match place_type with
    | Some t =>
        if negb (String.eqb t "") then
          Returns (JList (map JDict
                            (List.filter (has_type t) (mock_places latitude longitude))))
        else Returns (JList (map JDict (mock_places latitude longitude)))
    | None => Returns (JList (map JDict (mock_places latitude longitude)))
    end
  else
    match _make_request self net with
    | Returns result =>
        if status_is_OK result
        then Returns (PyDict.get_default result "results" (JList []))
        else Returns (JList [])
    | RaisesHTTPException _ => Returns (JList [])
    | RaisesOther message => RaisesOther message
    end.

(** The provider errors that [_make_request] turns into [HTTPException] or
    that show as a status other than ["OK"] in the answer. *)
Definition provider_error (net : transport) : bool :=
  match net with
  | Response status result => negb (status =? 200)%Z || negb (status_is_OK result)
  | ClientError _ => true
  | OtherError _ => false
  end.

End Gateway.

(** ** 4.5 Statistical requests: [IBGEService.get_complete_municipality_data] *)

Module Ibge.

(** An element of what [asyncio.gather(..., return_exceptions=True)] returns:
    the value of the coroutine or the exception it raised. The fetchers
    return [None] ([JNull]) when they catch a failure themselves. *)
Inductive gathered :=
| Value (v : json)
| Exception (e : string).

(** [x if not isinstance(x, Exception) else dflt] *)
Definition value_or (dflt : json) (x : gathered) : json :=
  match x with
  | Value v => v
  | Exception _ => dflt
  end.

(** [get_complete_municipality_data], given what the five coroutines gave.
    With [return_exceptions=True] the [gather] itself does not raise, so the
    [except] branch that returns [{"error": ..., "municipality_id": ...}] is
    not taken. *)
Definition get_complete_municipality_data (municipality_id : Z)
    (basic_info population area density economic_indicators : gathered)
  : list (string * json) :=
  [ ("municipality_id", JInt municipality_id);
    ("basic_info", value_or JNull basic_info);
    ("population", value_or JNull population);
    ("area", value_or JNull area);
    ("density", value_or JNull density);
    ("economic_indicators", value_or (JDict []) economic_indicators);
    ("last_updated", JStr "2024-07-03");
    ("data_sources",
      JList [ JStr "IBGE - Localidades";
              JStr "IBGE - Estimativas de População";
              JStr "IBGE - Censo Demográfico 2010" ]) ].

End Ibge.

(** ** Cache warm-up: the [warm_up_cache] endpoint *)

Module Admin.

Record stats := {
  processed : Z;
  cached : Z;
  errors : Z
}.

(** One turn of the loop; [loads municipality_id] tells whether awaiting
    [get_complete_municipality_data(municipality_id)] returns rather than
    raises. *)
Definition step (loads : Z -> bool) (st : stats) (municipality_id : Z) : stats :=
  if loads municipality_id then
    {| processed := processed st + 1; cached := cached st + 1; errors := errors st |}
  else
    {| processed := processed st; cached := cached st; errors := errors st + 1 |}.

(** The loop over [municipality_ids[:50]]. *)
Definition warm_up_stats (loads : Z -> bool) (municipality_ids : list Z) : stats :=
  fold_left (step loads) (firstn 50 municipality_ids)
    {| processed := 0; cached := 0; errors := 0 |}.

(** The dictionary the endpoint returns. *)
Definition warm_up_cache (loads : Z -> bool) (municipality_ids : list Z)
  : list (string * json) :=
  let st := warm_up_stats loads municipality_ids in
  [ ("status", JStr "completed");
    ("statistics",
      JDict [ ("processed", JInt (processed st));
              ("cached", JInt (cached st));
              ("errors", JInt (errors st)) ]);
    ("message",
      JStr ("Warm-up concluído para "
            ++ str_of_int (Z.of_nat (length municipality_ids))
            ++ " municípios")) ].

(** How many of [ids] satisfy [f]. *)
Definition count (f : Z -> bool) (ids : list Z) : Z :=
  Z.of_nat (length (List.filter f ids)).

(** The result says of some identifiers that they were skipped: it has a
    [skipped] entry, at top level or among the statistics. *)
Definition reports_skipped (result : list (string * json)) : Prop :=
  In "skipped" (PyDict.keys result)
  \/ exists st, PyDict.get result "statistics" = Some (JDict st)
                /\ In "skipped" (PyDict.keys st).

(** Seventy-five identifiers, 1 to 75. *)
Definition seventy_five : list Z := map Z.of_nat (seq 1 75).

End Admin.

(** ** The rest of [analyze_infrastructure] and the analyzer's other rules *)

Module Analysis.

Import Scoring.
Open Scope Q_scope.

(** [self.infrastructure_weights[category]]; the categories of [final_scores]
    are the keys of the weights, so the subscript never fails. *)
Definition weight_of (category : string) : Q :=
  PyDict.get_default infrastructure_weights category 0.

(** [overall_score = sum(score * self.infrastructure_weights[category] ...)],
    before [round(overall_score, 2)]. *)
Definition overall_score (nearby_places : list place) : Q :=
  fold_left (fun acc kv => acc + snd kv * weight_of (fst kv))
    (final_scores nearby_places) 0.

(** [place_counts[category] += 1] *)
Definition increment (category : string) (place_counts : list (string * Z))
  : list (string * Z) :=
  map (fun kv => if String.eqb (fst kv) category
                 then (fst kv, (snd kv + 1)%Z) else kv) place_counts.

(** [place_counts] after the first loop. *)
Definition place_counts (nearby_places : list place) : list (string * Z) :=
  fold_left
    (fun counts p =>
       match Classifier.categorize_place (p_types p) with
       | Some category => increment category counts
       | None => counts
       end)
    nearby_places
    (map (fun category => (category, 0%Z)) (PyDict.keys infrastructure_weights)).

(** [sum(place_counts.values())] *)
Definition total_places_analyzed (nearby_places : list place) : Z :=
  fold_left (fun acc kv => (acc + snd kv)%Z) (place_counts nearby_places) 0%Z.





(** [total_distance / len(facilities)] of [calculate_accessibility_score]. *)
Definition avg_distance (facilities : list (option Q)) : Q :=
  fold_left (fun acc facility =>
               acc + match facility with Some d => d | None => 1000 end)
    facilities 0
  / inject_Z (Z.of_nat (length facilities)).

(** The branches of [calculate_accessibility_score] as a function of the
    average distance. *)
Definition accessibility_curve (a : Q) : Q :=
  if Qle_bool a 300 then 10
  else if Qle_bool a 600 then 8 + (600 - a) / 300 * 2
  else if Qle_bool a 1000 then 6 + (1000 - a) / 400 * 2
  else if Qle_bool a 2000 then 3 + (2000 - a) / 1000 * 3
  else Qmax 0 (3 - (a - 2000) / 1000).

(** A place that [categorize_place] puts in some category. *)
Definition classified (p : place) : bool :=
  match Classifier.categorize_place (p_types p) with
  | Some _ => true
  | None => false
  end.

(** The [/details/{category}] endpoint of [endpoints/infrastructure.py]. It
    runs the analysis twice, once for the score and once for the facilities;
    [searched_for_score] and [searched_for_facilities] are what the nearby
    search returned each time. Either the validation fails with status 400,
    or the metrics are computed from the category's top places. *)
Record details := {
  d_score : Q;
  d_facilities : list scored_place;
  d_coverage_score : Q;
  d_accessibility_score : Q;
  d_convenience_score : Q
}.

Inductive response (A : Type) :=
| Ok (a : A)
| HTTPException (status_code : Z).
Arguments Ok {A} a.
Arguments HTTPException {A} status_code.

(** [category in self.infrastructure_weights] *)
Definition is_category (category : string) : bool :=
  match PyDict.get infrastructure_weights category with
  | Some _ => true
  | None => false
  end.

(** [calculate_category_score]: [category_scores.get(category, 0.0)] *)
Definition calculate_category_score (nearby_places : list place)
    (category : string) : Q :=
  PyDict.get_default (final_scores nearby_places) category 0.

(** [get_facilities_for_category]:
    [nearby_facilities.get(category, [])] over the [top_places] entries. *)
Definition get_facilities_for_category (nearby_places : list place)
    (category : string) : list scored_place :=
  match PyDict.get (detailed_analysis nearby_places) category with
  | Some a => ca_top_places a
  | None => []
  end.

Definition get_infrastructure_details
    (searched_for_score searched_for_facilities : list place)
    (category : string) : response details :=
  if negb (is_category category) then HTTPException 400
  else
    let category_score := calculate_category_score searched_for_score category in
    let facilities :=
      get_facilities_for_category searched_for_facilities category in
    let coverage_score := Qmin (len facilities / 5) 1 * 10 in
    let accessibility_score :=
      Proximity.calculate_accessibility_score
        (map (fun f => Some (distance f)) facilities) in
    let convenience_score := (coverage_score + accessibility_score) / 2 in
    Ok {| d_score := category_score;
          d_facilities := facilities;
          d_coverage_score := coverage_score;
          d_accessibility_score := accessibility_score;
          d_convenience_score := convenience_score |}.

End Analysis.

(** ** The rest of [CacheService] *)

Module CacheOps.

Import Cache.
Open Scope Z_scope.

(** [delete]: the service afterwards and [bool(result)], where [result] is
    the number of keys [DEL] removed. *)
Definition delete (self : CacheService) (now : Z) (key_type : string)
    (municipality_id : Z) (additional : string) : CacheService * bool :=
  match enabled self, redis_client self with
  | true, Some db =>
      let key := _generate_key key_type municipality_id additional in
      let r := redis_del db now [key] in
      ({| enabled := true; redis_client := Some (fst r) |}, negb (snd r =? 0))
  | _, _ => (self, false)
  end.

(** The expiry instant of a [ttl] set at [now] (seconds since the epoch),
    in milliseconds, fits a signed 64-bit integer: the range in which
    [SETEX] stores the entry as [Cache.redis_setex] has it. *)
Definition expiry_fits (now ttl : Z) : bool :=
  (0 <=? now) && ((now + ttl + 1) * 1000 <=? 2 ^ 63 - 1).

(** A string without [":"]. *)
Fixpoint colon_free (s : string) : bool :=
  match s with
  | EmptyString => true
  | String c s' => negb (Ascii.eqb c ":"%char) && colon_free s'
  end.

End CacheOps.

(** ** The rest of [GooglePlacesService] *)

Module Places.

Import Gateway.

(** The mock results of [search_places], [i] running over
    [range(min(5, 3))]. *)
Definition mock_result (query : string) (i : Z) : json :=
  JDict
    [ ("place_id", JStr ("mock_place_" ++ str_of_int i));
      ("name", JStr ("Mock result " ++ str_of_int (i + 1) ++ " for '" ++ query ++ "'"));
      ("formatted_address",
        JStr ("Mock address " ++ str_of_int (i + 1) ++ ", São Paulo, SP, Brazil"));
      ("geometry",
        JDict [ ("location",
                  JDict [ ("lat", JFloat (-23.5505 + inject_Z i * 0.001)%Q);
                          ("lng", JFloat (-46.6333 + inject_Z i * 0.001)%Q) ]) ]);
      ("rating", JFloat (4.0 + inject_Z i * 0.1)%Q);
      ("types", JList [JStr "establishment"]) ].

(** [search_places]; the optional location and radius only enter the request
    parameters. *)
Definition search_places (self : GooglePlacesService) (net : transport)
    (query : string) : awaited json :=
  if no_api_key self then
    Returns (JList (map (mock_result query) [0; 1; 2]%Z))
  else
    match _make_request self net with
    | Returns result =>
        if status_is_OK result
        then Returns (PyDict.get_default result "results" (JList []))
        else Returns (JList [])
    | RaisesHTTPException _ => Returns (JList [])
    | RaisesOther message => RaisesOther message
    end.

(** The initial [components] of [extract_address_components]. *)
Definition empty_components : list (string * json) :=
  [ ("street_number", JStr "");
    ("route", JStr "");
    ("sublocality", JStr "");
    ("locality", JStr "");
    ("administrative_area_level_1", JStr "");
    ("administrative_area_level_2", JStr "");
    ("country", JStr "");
    ("postal_code", JStr "") ].

(** [component_type in components] *)
Definition has_key (components : list (string * json)) (k : string) : bool :=
  match PyDict.get components k with
  | Some _ => true
  | None => false
  end.

(** [components[component_type] = long_name], for a key that is there. *)
Definition assign (k : string) (v : json) (components : list (string * json))
  : list (string * json) :=
  map (fun kv => if String.eqb (fst kv) k then (fst kv, v) else kv) components.

(** The inner loop over a component's types: the first type that is a key
    gets the long name, and the loop breaks. A list or a dictionary among the
    types is unhashable and makes the membership test raise ([None]). *)
Fixpoint assign_first (types : list json) (long_name : json)
    (components : list (string * json)) : option (list (string * json)) :=
  match types with
  | [] => Some components
  | JStr t :: rest =>
      if has_key components t then Some (assign t long_name components)
      else assign_first rest long_name components
  | JList _ :: _ => None
  | JDict _ :: _ => None
  | _ :: rest => assign_first rest long_name components
  end.

(** What [for component_type in types] visits: the elements of a list, the
    keys of a dictionary; the characters of a string, none of which is a key
    of [components], are left out; anything else is not iterable. *)
Definition type_candidates (types : json) : option (list json) :=
  match types with
  | JList l => Some l
  | JDict d => Some (map (fun kv => JStr (fst kv)) d)
  | JStr _ => Some []
  | _ => None
  end.

(** One turn of the outer loop; a component that is not a dictionary has no
    [.get] and raises. *)
Definition update_with (component : json) (components : list (string * json))
  : option (list (string * json)) :=
  match component with
  | JDict c =>
      let types := PyDict.get_default c "types" (JList []) in
      let long_name := PyDict.get_default c "long_name" (JStr "") in
      match type_candidates types with
      | Some ts => assign_first ts long_name components
      | None => None
      end
  | _ => None
  end.

Fixpoint update_all (address_components : list json)
    (components : list (string * json)) : option (list (string * json)) :=
  match address_components with
  | [] => Some components
  | component :: rest =>
      match update_with component components with
      | Some components' => update_all rest components'
      | None => None
      end
  end.

(** [extract_address_components]; [None] when it raises. Iterating over an
    empty dictionary or string visits nothing; over a non-empty one it visits
    strings, which have no [.get]. *)
Definition extract_address_components (place_data : list (string * json))
  : option (list (string * json)) :=
  match PyDict.get_default place_data "address_components" (JList []) with
  | JList l => update_all l empty_components
  | JDict [] => Some empty_components
  | JStr EmptyString => Some empty_components
  | _ => None
  end.

(** Address components as the provider documents them: a list of
    dictionaries whose [types], when present, is a list of strings. *)
Definition is_string (v : json) : bool :=
  match v with JStr _ => true | _ => false end.

Definition well_formed_component (component : json) : bool :=
  match component with
  | JDict c =>
      match PyDict.get c "types" with
      | Some (JList ts) => forallb is_string ts
      | Some _ => false
      | None => true
      end
  | _ => false
  end.

Definition well_formed (place_data : list (string * json)) : bool :=
  match PyDict.get place_data "address_components" with
  | Some (JList l) => forallb well_formed_component l
  | Some _ => false
  | None => true
  end.

End Places.

(** ** The IBGE fetchers and the endpoints over them *)

Module IbgeFetch.

Import Cache.
Open Scope Z_scope.

(** What the [try] block of a fetcher comes to: the [result] dictionary it
    builds from the provider's answer, the [return None] for an answer
    without the expected series, or an exception (an HTTP status error, a
    timeout, an answer of another shape), which the fetcher logs. *)
Inductive fetched :=
| Parsed (result : gmap string json)
| NoData
| Failed (e : string).

Record IBGEService := {
  cache_enabled : bool
}.

(** [if cached_data:] on a dictionary. *)
Definition nonempty (d : gmap string json) : bool := negb (Nat.eqb (size d) 0).

(** The protocol shared by [get_population_data], [get_area_data] and
    [get_density_data], for the namespace [key_type]: the cache afterwards and
    the value returned ([None] is Python's [None]). *)
Definition fetch (key_type : string) (self : IBGEService) (cache : CacheService)
    (now : Z) (municipality_id : Z) (outcome : fetched)
  : CacheService * option (gmap string json) :=
  let cached_data :=
    if cache_enabled self then get cache now key_type municipality_id "" else None in
  let request :=
    match outcome with
    | Parsed result =>
        if cache_enabled self
        then (fst (set cache now key_type municipality_id result "" None), Some result)
        else (cache, Some result)
    | NoData => (cache, None)
    | Failed _ => (cache, None)
    end in
  match cached_data with
  | Some d => if nonempty d then (cache, Some d) else request
  | None => request
  end.

Definition get_population_data := fetch "population".
Definition get_area_data := fetch "area".
Definition get_density_data := fetch "density".

(** The endpoints of [endpoints/ibge.py]. *)
Import Analysis.

(** [get_population]: [if not population_data: raise HTTPException(404)],
    which [except HTTPException: raise] lets through. *)
Definition get_population (population_data : option (gmap string json))
  : response (gmap string json) :=
  match population_data with
  | Some d => if nonempty d then Ok d else HTTPException 404
  | None => HTTPException 404
  end.

(** [get_municipality_data]. With [include_indicators] the data are those of
    [get_complete_municipality_data]; without, the three fetchers are awaited
    in turn and an exception of one of them leaves the [try] block. The
    [HTTPException(404)] raised for a missing [basic_info] is raised inside
    the [try] block too, whose only handler, [except Exception], answers
    500. *)
Definition get_municipality_data (municipality_id : Z) (include_indicators : bool)
    (basic_info population area density economic_indicators : Ibge.gathered)
  : response (list (string * json)) :=
  let body : response (list (string * json)) :=
    if include_indicators then
      Ok (Ibge.get_complete_municipality_data municipality_id basic_info
            population area density economic_indicators)
    else
      match basic_info, population, area with
      | Ibge.Value b, Ibge.Value p, Ibge.Value a =>
          Ok [ ("municipality_id", JInt municipality_id);
               ("basic_info", b);
               ("population", p);
               ("area", a);
               ("economic_indicators", JDict []);
               ("last_updated", JStr "2024-01-01") ]
      | _, _, _ => HTTPException 500
      end in
  match body with
  | Ok data =>
      if negb (truthy (PyDict.get_default data "basic_info" JNull))
      then HTTPException 500
      else Ok data
  | HTTPException status_code => HTTPException status_code
  end.

End IbgeFetch.

(** ** [IBGEService.search_municipalities] *)

Module IbgeSearch.

(** [needle in haystack] for strings. *)
Fixpoint starts_with (needle haystack : string) : bool :=
  match needle, haystack with
  | EmptyString, _ => true
  | String _ _, EmptyString => false
  | String c n', String c' h' => Ascii.eqb c c' && starts_with n' h'
  end.

Fixpoint contains (needle haystack : string) : bool :=
  starts_with needle haystack
  || match haystack with
     | EmptyString => false
     | String _ h' => contains needle h'
     end.

(** [x.get(k)], [None] when the key is missing. *)
Definition get_or_null (d : list (string * json)) (k : string) : json :=
  PyDict.get_default d k JNull.

(** [municipality.get(k, {}).get("nome")] and the like: the inner value must
    be a dictionary to have a [.get]; [None] stands for the exception. *)
Definition nested (d : list (string * json)) (k inner : string) : option json :=
  match PyDict.get_default d k (JDict []) with
  | JDict d' => Some (get_or_null d' inner)
  | _ => None
  end.

Section Search.

(** [str.lower] and [str.upper], which depend on Unicode tables. *)
Variables lower upper : string -> string.

(** The [uf] filter: [Some true] to keep the municipality, [Some false] for
    [continue], [None] when [.get] or [.upper()] fails. *)
Definition uf_matches (municipality : list (string * json)) (uf : option string)
  : option bool :=
  match uf with
  | None => Some true
  | Some u =>
      if String.eqb u "" then Some true
      else
        match PyDict.get_default municipality "UF" (JDict []) with
        | JDict d =>
            match PyDict.get_default d "sigla" (JStr "") with
            | JStr sigla => Some (String.eqb (upper sigla) (upper u))
            | _ => None
            end
        | _ => None
        end
  end.

(** The dictionary appended to [filtered]. *)
Definition summary (municipality : list (string * json)) : option json :=
  match nested municipality "UF" "sigla",
        nested municipality "microrregiao" "nome",
        nested municipality "mesorregiao" "nome" with
  | Some uf, Some micro, Some meso =>
      Some (JDict [ ("id", get_or_null municipality "id");
                    ("nome", get_or_null municipality "nome");
                    ("uf", uf);
                    ("microrregiao", micro);
                    ("mesorregiao", meso) ])
  | _, _, _ => None
  end.

(** The loop over the municipalities; [None] as soon as one turn raises. *)
Fixpoint filter_municipalities (name : string) (uf : option string)
    (municipalities : list json) : option (list json) :=
  match municipalities with
  | [] => Some []
  | JDict municipality :: rest =>
      match PyDict.get_default municipality "nome" (JStr "") with
      | JStr nome =>
          if contains (lower name) (lower nome) then
            match uf_matches municipality uf with
            | Some true =>
                match summary municipality, filter_municipalities name uf rest with
                | Some s, Some l => Some (s :: l)
                | _, _ => None
                end
            | Some false => filter_municipalities name uf rest
            | None => None
            end
          else filter_municipalities name uf rest
      | _ => None
      end
  | _ :: _ => None
  end.

(** [search_municipalities], given the decoded answer of the provider; a
    failed request, like any exception in the loop, gives the empty list. An
    answer that is not a list either visits nothing or raises at once. *)
Definition search_municipalities (name : string) (uf : option string)
    (answer : option json) : list json :=
  match answer with
  | Some (JList municipalities) =>
      match filter_municipalities name uf municipalities with
      | Some filtered => firstn 10 filtered
      | None => []
      end
  | _ => []
  end.

End Search.

(** The municipality behind an entry of the result. *)
Definition name_of (entry : json) : option json :=
  match entry with
  | JDict d => PyDict.get d "nome"
  | _ => None
  end.

End IbgeSearch.

(** ** Recommendations: [get_improvement_suggestion] and the
    [/recommendations] endpoint *)

Module Recommendations.

Import Scoring Analysis.
Open Scope Q_scope.

(** The local table [suggestions]. *)
Definition suggestions : list (string * list (string * string)) :=
  [ ("healthcare",
      [ ("high", "Consider proximity to major hospitals and specialized clinics");
        ("medium", "Look for basic healthcare services within walking distance");
        ("low", "Ensure easy access to emergency services and pharmacies") ]);
    ("education",
      [ ("high", "Verify availability of schools for all educational levels");
        ("medium", "Check quality and reputation of nearby educational institutions");
        ("low", "Consider transportation to quality schools in other areas") ]);
    ("transportation",
      [ ("high", "Improve public transportation frequency and coverage");
        ("medium", "Add more bus stops or subway connections");
        ("low", "Essential to have reliable transportation access") ]);
    ("shopping",
      [ ("high", "Diversify retail options and add specialty stores");
        ("medium", "Ensure adequate grocery and daily needs coverage");
        ("low", "Basic shopping necessities should be easily accessible") ]);
    ("services",
      [ ("high", "Expand government and financial services");
        ("medium", "Add banking and postal services nearby");
        ("low", "Essential services like banks and post office needed") ]);
    ("recreation",
      [ ("high", "Enhance parks and recreational facilities");
        ("medium", "Add sports facilities and entertainment options");
        ("low", "Basic recreational spaces for community well-being") ]);
    ("dining",
      [ ("high", "Diversify dining options and cuisines");
        ("medium", "Add family-friendly restaurants and cafes");
        ("low", "Basic dining options for convenience") ]) ].

(** [x < y] on scores. *)
Definition Qlt_bool (x y : Q) : bool := negb (Qle_bool y x).

(** [get_improvement_suggestion] *)
Definition get_improvement_suggestion (category : string) (score : Q) : string :=
  let category_suggestions := PyDict.get_default suggestions category [] in
  let severity :=
    if Qlt_bool score 5 then "low"
    else if Qlt_bool score 7 then "medium"
    else "high" in
  PyDict.get_default category_suggestions severity
    ("Improve " ++ category ++ " infrastructure").

(** An entry of [recommendations]. *)
Record recommendation := {
  r_category : string;
  r_current_score : Q;
  r_severity : string;
  r_suggestion : string;
  r_priority : Q
}.

(** The loop over [category_scores.items()]; [None] when the subscript
    [infrastructure_weights[category]] raises [KeyError]. *)
Fixpoint recommend (category_scores : list (string * Q))
  : option (list recommendation) :=
  match category_scores with
  | [] => Some []
  | (category, score) :: rest =>
      if Qlt_bool score 7 then
        let severity :=
          if Qlt_bool score 5 then "high"
          else if Qlt_bool score 7 then "medium"
          else "low" in
        match PyDict.get infrastructure_weights category, recommend rest with
        | Some priority, Some l =>
            Some ({| r_category := category;
                     r_current_score := score;
                     r_severity := severity;
                     r_suggestion := get_improvement_suggestion category score;
                     r_priority := priority |} :: l)
        | _, _ => None
        end
      else recommend rest
  end.

(** The order of the tuples [(priority, -current_score)]. *)
Definition key_le (a b : recommendation) : bool :=
  if Qeq_bool (r_priority a) (r_priority b)
  then Qle_bool (- r_current_score a) (- r_current_score b)
  else Qle_bool (r_priority a) (r_priority b).

(** [b] does not come after [a] in the descending order. *)
Definition before (a b : recommendation) : Prop := key_le b a = true.

(** [recommendations.sort(key=..., reverse=True)]: descending and stable,
    here by insertion. *)
Fixpoint insert_desc (x : recommendation) (l : list recommendation)
  : list recommendation :=
  match l with
  | [] => [x]
  | y :: l' => if key_le y x then x :: l else y :: insert_desc x l'
  end.

Fixpoint sort_desc (l : list recommendation) : list recommendation :=
  match l with
  | [] => []
  | x :: rest => insert_desc x (sort_desc rest)
  end.

Record recommendations_result := {
  rr_overall_score : Q;
  rr_recommendations : list recommendation;
  rr_strong_points : list (string * Q)
}.

(** The endpoint, for the category scores of an analysis: a [KeyError] in the
    loop, or the division by [len(category_scores)] when there is no score,
    ends in status 500. *)
Definition get_infrastructure_recommendations (category_scores : list (string * Q))
  : response recommendations_result :=
  match recommend category_scores with
  | None => HTTPException 500
  | Some recommendations =>
      match category_scores with
      | [] => HTTPException 500
      | _ :: _ =>
          Ok {| rr_overall_score :=
                  fold_left (fun acc kv => acc + snd kv) category_scores 0
                  / inject_Z (Z.of_nat (length category_scores));
                rr_recommendations := sort_desc recommendations;
                rr_strong_points :=
                  List.filter (fun kv => Qle_bool 8 (snd kv)) category_scores |}
      end
  end.

End Recommendations.

(* ================================================================== *)
(** * Properties *)
(* ================================================================== *)

Module ProximityFacts.
Import Proximity.
Open Scope Q_scope.

Lemma ideal_dist_of_pos (category : string) : 0 < ideal_dist_of category.
Proof.
  cbv [ideal_dist_of PyDict.get_default PyDict.get ideal_distances].
  repeat match goal with
         | |- context [String.eqb ?a ?b] => destruct (String.eqb a b)
         end; reflexivity.
Qed.

Lemma Qle_bool_false_lt (x y : Q) : Qle_bool x y = false -> y < x.
Proof.
  intros H. apply Qnot_le_lt. intros Hle.
  apply Qle_bool_iff in Hle. congruence.
Qed.

Ltac split_tests :=
  repeat match goal with
         | |- context [Qle_bool ?a ?b] =>
             let E := fresh "E" in
             destruct (Qle_bool a b) eqn:E;
             [ apply Qle_bool_iff in E | apply Qle_bool_false_lt in E ]
         | |- context [Qmax ?a ?b] =>
             let M := fresh "M" in
             destruct (Q.max_spec a b) as [[? M] | [? M]]; rewrite M
         end.

Lemma scale_le (d i k : Q) : 0 < i -> (d <= i * k <-> d / i <= k).
Proof.
  intros Hi. split; intros H.
  - apply Qle_shift_div_r; [assumption | now rewrite Qmult_comm].
  - apply (Qle_trans _ (d / i * i)).
    + apply Qle_lteq; right; field; lra.
    + rewrite (Qmult_comm i k). apply Qmult_le_compat_r; lra.
Qed.

Lemma scale_test (d i k : Q) : 0 < i -> Qle_bool d (i * k) = Qle_bool (d / i) k.
Proof.
  intros Hi. apply eq_true_iff_eq. rewrite !Qle_bool_iff. now apply scale_le.
Qed.

(** Every category's curve is the unit curve at [distance / ideal_dist]. *)
Lemma score_as_unit_curve (distance : Q) (category : string) :
  calculate_proximity_score distance category
  == unit_curve (distance / ideal_dist_of category).
Proof.
  unfold calculate_proximity_score, unit_curve.
  pose proof (ideal_dist_of_pos category) as Hi.
  set (i := ideal_dist_of category) in *.
  rewrite <- (scale_test distance i 2 Hi), <- (scale_test distance i 4 Hi).
  replace (Qle_bool (distance / i) 1) with (Qle_bool distance i).
  2:{ rewrite <- (scale_test distance i 1 Hi).
      apply eq_true_iff_eq. rewrite !Qle_bool_iff.
      assert (E : i * 1 == i) by ring. now rewrite E. }
  destruct (Qle_bool distance i); [reflexivity |].
  destruct (Qle_bool distance (i * 2)); [field; lra |].
  destruct (Qle_bool distance (i * 4)); [field; lra |].
  assert (E : distance / (i * 10) == (1 # 10) * (distance / i)) by (field; lra).
  revert E. generalize (distance / (i * 10)), (distance / i). intros a b E.
  split_tests; lra.
Qed.

Lemma unit_curve_antitone (u v : Q) : u <= v -> unit_curve v <= unit_curve u.
Proof. intros H. unfold unit_curve. split_tests; lra. Qed.

Lemma unit_curve_range (u : Q) : 0 <= unit_curve u <= 10.
Proof. unfold unit_curve. split_tests; lra. Qed.

Lemma scaled_le (d1 d2 i : Q) : 0 < i -> d1 <= d2 -> d1 / i <= d2 / i.
Proof.
  intros Hi H. unfold Qdiv. apply Qmult_le_compat_r; [assumption |].
  apply Qinv_le_0_compat. lra.
Qed.

Lemma score_at_zero (category : string) : calculate_proximity_score 0 category = 10.
Proof.
  unfold calculate_proximity_score.
  pose proof (ideal_dist_of_pos category) as Hi.
  destruct (Qle_bool 0 (ideal_dist_of category)) eqn:E; [reflexivity |].
  apply Qle_bool_false_lt in E. lra.
Qed.

(** C8: for every distance [d >= 0] and every category (each has a positive
    ideal distance, unknown ones default to 1000), the proximity score is
    non-increasing in [d], lies in the closed interval [0, 10], and is exactly
    10 at [d = 0]. *)
Theorem proximity_score_antitone_bounded (category : string) (d1 d2 : Q) :
  0 <= d1 -> d1 <= d2 ->
  0 < ideal_dist_of category
  /\ calculate_proximity_score d2 category <= calculate_proximity_score d1 category
  /\ 0 <= calculate_proximity_score d1 category <= 10
  /\ calculate_proximity_score 0 category = 10.
Proof.
  intros _ Hle. pose proof (ideal_dist_of_pos category) as Hi.
  split; [exact Hi |]. split; [| split].
  - rewrite !score_as_unit_curve.
    apply unit_curve_antitone. now apply scaled_le.
  - rewrite score_as_unit_curve. apply unit_curve_range.
  - apply score_at_zero.
Qed.

Lemma proximity_score_antitone_bounded_witness :
  0 < ideal_dist_of "education"
  /\ calculate_proximity_score 2500 "education"
     <= calculate_proximity_score 1000 "education"
  /\ 0 <= calculate_proximity_score 1000 "education" <= 10
  /\ calculate_proximity_score 0 "education" = 10.
Proof.
  apply (proximity_score_antitone_bounded "education" 1000 2500);
    vm_compute; discriminate.
Defined.

(** On the first three pieces the code is the specification's curve. *)
Lemma score_matches_spec_near (distance : Q) (category : string) :
  distance <= 4 * ideal_dist_of category ->
  calculate_proximity_score distance category
  == spec_proximity_score distance (ideal_dist_of category).
Proof.
  unfold calculate_proximity_score, spec_proximity_score.
  pose proof (ideal_dist_of_pos category) as Hi.
  set (i := ideal_dist_of category) in *. intros Hd.
  assert (T2 : Qle_bool distance (i * 2) = Qle_bool distance (2 * i)).
  { apply eq_true_iff_eq. rewrite !Qle_bool_iff. split; lra. }
  assert (T4 : Qle_bool distance (i * 4) = Qle_bool distance (2 * 2 * i)).
  { apply eq_true_iff_eq. rewrite !Qle_bool_iff. split; lra. }
  assert (T4' : Qle_bool distance (4 * i) = true) by now apply Qle_bool_iff.
  rewrite T2. destruct (Qle_bool distance i); [reflexivity |].
  destruct (Qle_bool distance (2 * i)); [field; lra |].
  rewrite T4'.
  replace (Qle_bool distance (i * 4)) with true.
  - field; lra.
  - symmetry. apply Qle_bool_iff. lra.
Qed.

(** The curve meets its breakpoints from the left: 10, 5 and 2. *)
Lemma score_at_breakpoints (category : string) :
  let i := ideal_dist_of category in
  calculate_proximity_score i category == 10
  /\ calculate_proximity_score (i * 2) category == 5
  /\ calculate_proximity_score (i * 4) category == 2.
Proof.
  intros i. pose proof (ideal_dist_of_pos category) as Hi. fold i in Hi.
  rewrite !score_as_unit_curve. fold i.
  assert (E1 : i / i == 1) by (field; lra).
  assert (E2 : i * 2 / i == 2) by (field; lra).
  assert (E4 : i * 4 / i == 4) by (field; lra).
  revert E1 E2 E4. generalize (i / i), (i * 2 / i), (i * 4 / i).
  intros a b c E1 E2 E4. unfold unit_curve.
  repeat split; split_tests; lra.
Qed.

(** Beyond four times the ideal distance the code computes
    [max(0, 2 - d / (10 * ideal))], which never exceeds 1.6: the score drops
    from 2 to at most 1.6 as soon as the last breakpoint is passed. *)
Lemma score_far_piece (distance : Q) (category : string) :
  ideal_dist_of category * 4 < distance ->
  calculate_proximity_score distance category
  == Qmax 0 (2 - distance / (ideal_dist_of category * 10))
  /\ calculate_proximity_score distance category <= 8 # 5.
Proof.
  intros Hd. pose proof (ideal_dist_of_pos category) as Hi.
  assert (Hu : 4 < distance / ideal_dist_of category).
  { apply Qlt_shift_div_l; lra. }
  split.
  - unfold calculate_proximity_score. cbv zeta.
    set (i := ideal_dist_of category) in *.
    replace (Qle_bool distance i) with false
      by (symmetry; apply not_true_is_false; rewrite Qle_bool_iff; lra).
    replace (Qle_bool distance (i * 2)) with false
      by (symmetry; apply not_true_is_false; rewrite Qle_bool_iff; lra).
    replace (Qle_bool distance (i * 4)) with false
      by (symmetry; apply not_true_is_false; rewrite Qle_bool_iff; lra).
    reflexivity.
  - rewrite score_as_unit_curve. revert Hu.
    generalize (distance / ideal_dist_of category). intros u Hu.
    unfold unit_curve. split_tests; lra.
Qed.

(** The sibling curve [calculate_accessibility_score] does subtract its last
    breakpoint: one facility at 2000 m scores 3, one at 2001 m scores 2.999. *)
Lemma accessibility_score_joins_last_piece :
  calculate_accessibility_score [Some 2000] == 3
  /\ calculate_accessibility_score [Some 2001] == 2999 # 1000.
Proof. vm_compute. split; reflexivity. Qed.

(** C2 (the code departs from the specification): at 4001 m from a healthcare facility
    (ideal distance 1000 m) the code returns [2 - 4001/10000 = 1.5999], where
    the specification's last piece [max(0, 2 - (d - 4*i)/(10*i))] gives
    [1.9999]. *)
Theorem far_piece_omits_breakpoint_offset :
  ideal_dist_of "healthcare" == 1000
  /\ calculate_proximity_score 4000 "healthcare" == 2
  /\ calculate_proximity_score 4001 "healthcare" == 15999 # 10000
  /\ spec_proximity_score 4001 1000 == 19999 # 10000.
Proof. vm_compute. repeat split; reflexivity. Qed.

End ProximityFacts.

Module ClassifierFacts.
Import Classifier.

Lemma type_in_spec (t : string) (types : list string) :
  type_in t types = true <-> In t types.
Proof.
  unfold type_in. rewrite existsb_exists. split.
  - intros (x & Hx & E). apply String.eqb_eq in E. now subst.
  - intros H. exists t. split; [assumption | apply String.eqb_refl].
Qed.

Lemma inner_loop_spec (place_types types : list string) :
  inner_loop place_types types = true <-> intersects place_types types.
Proof.
  unfold intersects. induction place_types as [| t rest IH]; simpl.
  - split; [discriminate | intros (t & [] & _)].
  - destruct (type_in t types) eqn:E.
    + split; [| reflexivity]. intros _. exists t. split; [now left |].
      now apply type_in_spec.
    + rewrite IH. split.
      * intros (x & Hx & Hin). exists x. split; [now right | assumption].
      * intros (x & [-> | Hx] & Hin).
        -- apply type_in_spec in Hin. congruence.
        -- now exists x.
Qed.

Lemma inner_loop_ext (l1 l2 types : list string) :
  (forall t, In t l1 <-> In t l2) ->
  inner_loop l1 types = inner_loop l2 types.
Proof.
  intros H. apply eq_true_iff_eq. rewrite !inner_loop_spec.
  unfold intersects. split; intros (t & Ht & Hin); exists t; split;
    try assumption; now apply H.
Qed.

Section Mapping.
Variable mapping : list (string * list string).

Lemma categorize_with_ext (l1 l2 : list string) :
  (forall t, In t l1 <-> In t l2) ->
  categorize_with mapping l1 = categorize_with mapping l2.
Proof.
  intros H. induction mapping as [| [category types] rest IH]; simpl.
  - reflexivity.
  - rewrite (inner_loop_ext l1 l2 types H), IH. reflexivity.
Qed.

Lemma categorize_with_None (place_types : list string) :
  categorize_with mapping place_types = None <->
  Forall (fun kv => ~ intersects place_types (snd kv)) mapping.
Proof.
  induction mapping as [| [category types] rest IH]; simpl.
  - split; [constructor | reflexivity].
  - destruct (inner_loop place_types types) eqn:E.
    + split; [discriminate |]. intros H. inversion H as [| ? ? Hn _]; subst.
      apply inner_loop_spec in E. contradiction.
    + rewrite IH. split.
      * intros H. constructor; [| assumption]. simpl. intros Hi.
        apply inner_loop_spec in Hi. congruence.
      * intros H. now inversion H.
Qed.

Lemma categorize_with_Some (place_types : list string) (c : string) :
  categorize_with mapping place_types = Some c <->
  exists before types after,
    mapping = (before ++ (c, types) :: after)%list
    /\ intersects place_types types
    /\ Forall (fun kv => ~ intersects place_types (snd kv)) before.
Proof.
  induction mapping as [| [category types] rest IH]; simpl.
  - split; [discriminate |]. intros (before & ? & ? & E & _).
    now destruct before.
  - destruct (inner_loop place_types types) eqn:E.
    + split.
      * intros [= <-]. exists [], types, rest. repeat split.
        -- now apply inner_loop_spec.
        -- constructor.
      * intros (before & types' & after & Eq & Hi & Hb).
        destruct before as [| kv before]; simpl in Eq.
        -- now injection Eq as -> _ _.
        -- injection Eq as <- _. inversion Hb as [| ? ? Hn _]; subst.
           apply inner_loop_spec in E. contradiction.
    + rewrite IH. split.
      * intros (before & types' & after & -> & Hi & Hb).
        exists ((category, types) :: before), types', after.
        repeat split; [assumption |]. constructor; [| assumption].
        simpl. intros Hx. apply inner_loop_spec in Hx. congruence.
      * intros (before & types' & after & Eq & Hi & Hb).
        destruct before as [| kv before]; simpl in Eq.
        -- injection Eq as _ <- _. apply inner_loop_spec in Hi. congruence.
        -- injection Eq as _ ->. exists before, types', after.
           repeat split; [assumption |]. now inversion Hb.
Qed.

End Mapping.

(** C10: [categorize_place] returns the first category, in the declaration
    order healthcare, education, transportation, shopping, services,
    recreation, dining, whose recognised tags meet the input tags; it returns
    [None] exactly when no input tag belongs to any category; and its result
    depends only on the set of input tags, not on their order or
    multiplicity. *)
Theorem categorize_place_first_match (place_types : list string) :
  PyDict.keys place_type_mapping
  = ["healthcare"; "education"; "transportation"; "shopping";
     "services"; "recreation"; "dining"]
  /\ (forall c,
        categorize_place place_types = Some c <->
        exists before types after,
          place_type_mapping = (before ++ (c, types) :: after)%list
          /\ intersects place_types types
          /\ Forall (fun kv => ~ intersects place_types (snd kv)) before)
  /\ (categorize_place place_types = None <->
      forall t c types,
        In t place_types -> In (c, types) place_type_mapping -> ~ In t types)
  /\ (forall place_types',
        (forall t, In t place_types <-> In t place_types') ->
        categorize_place place_types' = categorize_place place_types).
Proof.
  split; [reflexivity |]. split; [| split].
  - intros c. apply categorize_with_Some.
  - unfold categorize_place. rewrite categorize_with_None, List.Forall_forall.
    unfold intersects. split.
    + intros H t c types Ht Hin Htin. apply (H (c, types) Hin). now exists t.
    + intros H [c types] Hin (t & Ht & Htin). now apply (H t c types).
  - intros l2 H. symmetry. now apply categorize_with_ext.
Qed.

(** The same tags in another order, with repetitions, are classified alike;
    an education tag listed before a healthcare tag still yields healthcare. *)
Lemma categorize_place_first_match_witness :
  categorize_place ["hospital"; "school"; "school"; "health"]
  = categorize_place ["school"; "health"; "hospital"]
  /\ categorize_place ["school"; "health"; "hospital"] = Some "healthcare".
Proof.
  split; [| reflexivity].
  apply (categorize_place_first_match ["school"; "health"; "hospital"]).
  intros t. simpl. tauto.
Defined.

End ClassifierFacts.

Module ScoringFacts.
Import Scoring.
Open Scope Q_scope.

(** *** Initialisation and the weights *)

(** C3 (as the code has it): the seven weights are the constants of the
    specification and sum to exactly 1, hence within the tolerance. The
    initialiser takes no configuration and performs no check: called without
    arguments it constructs the analyzer with these weights and does not
    raise; the only calls that raise are those that pass an argument, and
    they raise [TypeError]. *)
Theorem init_weights_sum_to_one_unchecked :
  __init__ [] []
  = Constructed {| self_infrastructure_weights := infrastructure_weights;
                   self_place_type_mapping := Classifier.place_type_mapping |}
  /\ PyDict.keys infrastructure_weights
     = ["healthcare"; "education"; "transportation"; "shopping";
        "services"; "recreation"; "dining"]
  /\ Forall2 Qeq (map snd infrastructure_weights)
       [1 # 4; 1 # 5; 3 # 20; 3 # 20; 1 # 10; 1 # 10; 1 # 20]
  /\ weight_sum infrastructure_weights == 1
  /\ weights_valid infrastructure_weights
  /\ (forall args kwargs self,
        __init__ args kwargs = Constructed self ->
        args = [] /\ kwargs = []
        /\ self_infrastructure_weights self = infrastructure_weights)
  /\ (forall args kwargs error,
        __init__ args kwargs = Raises error ->
        error = "TypeError" /\ (args <> [] \/ kwargs <> [])).
Proof.
  split; [reflexivity |]. split; [reflexivity |]. split.
  { repeat constructor. }
  split; [reflexivity |]. split.
  { unfold weights_valid. vm_compute. discriminate. }
  split.
  - intros [| a args] [| k kwargs] self H; try discriminate H.
    injection H as <-. repeat split.
  - intros [| a args] [| k kwargs] error H; try discriminate H;
      injection H as <-; (split; [reflexivity |]);
      [right | left | left]; discriminate.
Qed.

(** C3 (as stated, refuted): a weight table in which healthcare weighs 0.30
    sums to 1.05 and so violates the tolerance; handing it to the initialiser,
    by position or by keyword, raises [TypeError], not [ConfigurationError],
    and so does handing it the valid table: the failure is that of the
    signature, no sum is verified. *)
Lemma init_rejects_configuration_unverified :
  weight_sum unbalanced_weights == 21 # 20
  /\ ~ weights_valid unbalanced_weights
  /\ __init__ [unbalanced_weights] [] = Raises "TypeError"
  /\ __init__ [] [("infrastructure_weights", unbalanced_weights)]
     = Raises "TypeError"
  /\ weights_valid infrastructure_weights
  /\ __init__ [infrastructure_weights] [] = Raises "TypeError"
  /\ "TypeError" <> "ConfigurationError".
Proof.
  split; [reflexivity |]. split.
  { unfold weights_valid. vm_compute. intros H. now apply H. }
  split; [reflexivity |]. split; [reflexivity |]. split.
  { unfold weights_valid. vm_compute. discriminate. }
  split; [reflexivity | discriminate].
Qed.

(** *** The sort and the top five *)

Lemma insert_by_distance_perm (x : scored_place) (l : list scored_place) :
  Permutation (x :: l) (insert_by_distance x l).
Proof.
  induction l as [| y l IH]; simpl; [reflexivity |].
  destruct (Qle_bool (distance x) (distance y)); [reflexivity |].
  rewrite perm_swap. now apply perm_skip.
Qed.

Lemma sorted_by_distance_perm (l : list scored_place) :
  Permutation l (sorted_by_distance l).
Proof.
  induction l as [| x l IH]; simpl; [reflexivity |].
  rewrite <- insert_by_distance_perm. now apply perm_skip.
Qed.

Lemma insert_by_distance_sorted (x : scored_place) (l : list scored_place) :
  StronglySorted by_distance l ->
  StronglySorted by_distance (insert_by_distance x l).
Proof.
  induction 1 as [| y l Hs IH Hy]; simpl.
  - repeat constructor.
  - destruct (Qle_bool (distance x) (distance y)) eqn:E.
    + apply Qle_bool_iff in E. constructor; [now constructor |].
      constructor; [exact E |].
      rewrite List.Forall_forall in *. intros z Hz.
      unfold by_distance in *. specialize (Hy z Hz). lra.
    + apply ProximityFacts.Qle_bool_false_lt in E.
      constructor; [exact IH |].
      rewrite List.Forall_forall in *. intros z Hz.
      apply (Permutation_in _ (Permutation_sym (insert_by_distance_perm x l)))
        in Hz.
      destruct Hz as [<- | Hz]; [unfold by_distance; lra | now apply Hy].
Qed.

Lemma sorted_by_distance_sorted (l : list scored_place) :
  StronglySorted by_distance (sorted_by_distance l).
Proof.
  induction l as [| x l IH]; simpl; [constructor |].
  now apply insert_by_distance_sorted.
Qed.

Lemma sorted_split (n : nat) (l : list scored_place) :
  StronglySorted by_distance l ->
  StronglySorted by_distance (firstn n l)
  /\ forall x y, In x (firstn n l) -> In y (skipn n l) -> by_distance x y.
Proof.
  intros Hs. revert n. induction Hs as [| z l Hs IH Hz]; intros [| n]; simpl.
  - split; [constructor | intros ? ? []].
  - split; [constructor | intros ? ? []].
  - split; [constructor | intros ? ? []].
  - destruct (IH n) as [IH1 IH2]. rewrite List.Forall_forall in Hz. split.
    + constructor; [exact IH1 |]. rewrite List.Forall_forall.
      intros y Hy. apply Hz. rewrite <- (firstn_skipn n l).
      apply in_or_app. now left.
    + intros x y [<- | Hx] Hy.
      * apply Hz. rewrite <- (firstn_skipn n l). apply in_or_app. now right.
      * now apply IH2.
Qed.

(** *** Sums *)

Lemma sum_of_acc (f : scored_place -> Q) (l : list scored_place) (a : Q) :
  fold_left (fun acc p => acc + f p) l a == a + sum_of f l.
Proof.
  unfold sum_of. revert a. induction l as [| x l IH]; intros a; simpl.
  - ring.
  - rewrite (IH (a + f x)), (IH (0 + f x)). ring.
Qed.

Lemma sum_of_cons (f : scored_place -> Q) (x : scored_place) (l : list scored_place) :
  sum_of f (x :: l) == f x + sum_of f l.
Proof. unfold sum_of at 1. simpl. rewrite sum_of_acc. ring. Qed.

Lemma sum_of_perm (f : scored_place -> Q) (l l' : list scored_place) :
  Permutation l l' -> sum_of f l == sum_of f l'.
Proof.
  induction 1 as [| x l l' _ IH | x y l | l l' l'' _ IH1 _ IH2].
  - reflexivity.
  - rewrite !sum_of_cons, IH. reflexivity.
  - rewrite !sum_of_cons. ring.
  - now rewrite IH1.
Qed.

Lemma top_places_all (places : list scored_place) :
  (length places <= 5)%nat -> Permutation (top_places places) places.
Proof.
  intros H. unfold top_places. rewrite firstn_all2.
  - symmetry. apply sorted_by_distance_perm.
  - now rewrite <- (Permutation_length (sorted_by_distance_perm places)).
Qed.

(** *** The first loop files each place under its category *)

Lemma get_append_to (category c : string) (x : scored_place)
    (d : list (string * list scored_place)) :
  PyDict.get (append_to category x d) c
  = option_map (fun l => if String.eqb c category then (l ++ [x])%list else l)
      (PyDict.get d c).
Proof.
  induction d as [| [k l] d IH]; simpl; [reflexivity |].
  destruct (String.eqb_spec k category) as [Ek | Ek]; simpl;
    destruct (String.eqb_spec k c) as [Ec | Ec]; simpl; try exact IH.
  - subst. now rewrite String.eqb_refl.
  - subst. destruct (String.eqb_spec c category); [contradiction | reflexivity].
Qed.

Lemma get_collect_from (nearby_places : list place) (c : string)
    (acc : list (string * list scored_place)) :
  PyDict.get
    (fold_left
       (fun category_scores p =>
          match Classifier.categorize_place (p_types p) with
          | Some category => append_to category (scored p category) category_scores
          | None => category_scores
          end) nearby_places acc) c
  = option_map (fun l => (l ++ points_of c nearby_places)%list) (PyDict.get acc c).
Proof.
  revert acc. induction nearby_places as [| p rest IH]; intros acc; simpl.
  - destruct (PyDict.get acc c); simpl; [now rewrite app_nil_r | reflexivity].
  - rewrite IH. unfold points_of, classified_as. simpl.
    destruct (Classifier.categorize_place (p_types p)) as [c0 |];
      [| reflexivity].
    rewrite get_append_to. destruct (PyDict.get acc c) as [l |]; simpl;
      [| reflexivity].
    rewrite (String.eqb_sym c0 c). destruct (String.eqb c c0) eqn:E; simpl.
    + apply String.eqb_eq in E. subst. now rewrite <- app_assoc.
    + reflexivity.
Qed.

Lemma get_initial (keys : list string) (c : string) :
  In c keys ->
  PyDict.get (map (fun category => (category, @nil scored_place)) keys) c
  = Some [].
Proof.
  induction keys as [| k keys IH]; simpl; [intros [] |].
  intros H. destruct (String.eqb k c) eqn:E; [reflexivity |].
  destruct H as [-> | H]; [now rewrite String.eqb_refl in E | now apply IH].
Qed.

Lemma get_collect (nearby_places : list place) (category : string) :
  In category (PyDict.keys infrastructure_weights) ->
  PyDict.get (collect nearby_places) category
  = Some (points_of category nearby_places).
Proof.
  intros H. unfold collect. rewrite get_collect_from, (get_initial _ _ H).
  reflexivity.
Qed.

Lemma get_map_values {A B : Type} (f : A -> B) (d : list (string * A)) (c : string) :
  PyDict.get (map (fun kv => (fst kv, f (snd kv))) d) c
  = option_map f (PyDict.get d c).
Proof.
  induction d as [| [k v] d IH]; simpl; [reflexivity |].
  destruct (String.eqb k c); [reflexivity | exact IH].
Qed.

(** *** What a category's entry holds *)

(** C1 (as the code has it): for every nearby-search result and each of the
    seven categories, the category's points are those classified into it;
    [top_places] holds them sorted ascending by distance and cut to the five
    closest; the base score [avg_score] is the average proximity score of
    those top places, which is the average over all the category's points
    whenever there are at most five of them. *)
Theorem category_base_score_over_top_places
    (nearby_places : list place) (category : string) :
  In category (PyDict.keys infrastructure_weights) ->
  let places := points_of category nearby_places in
  PyDict.get (detailed_analysis nearby_places) category
  = Some (analyze_category places)
  /\ ca_count (analyze_category places) = length places
  /\ ca_top_places (analyze_category places) = top_places places
  /\ (places <> [] ->
      ca_score (analyze_category places)
      = Qmin 10 (avg_score places + availability_bonus places))
  /\ StronglySorted by_distance (top_places places)
  /\ length (top_places places) = Nat.min 5 (length places)
  /\ (exists rest,
        Permutation places (top_places places ++ rest)%list
        /\ forall x y, In x (top_places places) -> In y rest -> by_distance x y)
  /\ avg_score places == average_of_all (top_places places)
  /\ ((length places <= 5)%nat -> avg_score places == average_of_all places).
Proof.
  intros Hc places. repeat apply conj.
  - unfold detailed_analysis. rewrite get_map_values, (get_collect _ _ Hc).
    reflexivity.
  - now destruct places.
  - now destruct places.
  - now destruct places.
  - apply sorted_split, sorted_by_distance_sorted.
  - unfold top_places. rewrite length_firstn.
    now rewrite <- (Permutation_length (sorted_by_distance_perm places)).
  - exists (skipn 5 (sorted_by_distance places)). split.
    + unfold top_places. rewrite firstn_skipn. apply sorted_by_distance_perm.
    + apply sorted_split, sorted_by_distance_sorted.
  - reflexivity.
  - intros Hlen. unfold avg_score, average_of_all, len.
    pose proof (top_places_all places Hlen) as Hp.
    rewrite (sum_of_perm score _ _ Hp), (Permutation_length Hp). reflexivity.
Qed.

Lemma category_base_score_over_top_places_witness :
  PyDict.get (detailed_analysis six_clinics) "healthcare"
  = Some (analyze_category (points_of "healthcare" six_clinics))
  /\ length (top_places (points_of "healthcare" six_clinics)) = 5%nat.
Proof.
  split.
  - apply (category_base_score_over_top_places six_clinics "healthcare").
    simpl. tauto.
  - reflexivity.
Defined.

(** C1 (as stated, refuted): with six healthcare points, five within the ideal
    distance and one at 3000 m (proximity score 3.5), the base score is 10, the
    average of the five closest, and not 107/12, the average of all six; the
    category's reported score is 10 where the average of all points plus the
    bonus would give 113/12. *)
Lemma base_score_ignores_sixth_place :
  map name (points_of "healthcare" six_clinics) = ["A"; "B"; "C"; "D"; "E"; "F"]
  /\ map name (top_places (points_of "healthcare" six_clinics))
     = ["A"; "C"; "D"; "E"; "F"]
  /\ avg_score (points_of "healthcare" six_clinics) == 10
  /\ average_of_all (points_of "healthcare" six_clinics) == 107 # 12
  /\ ~ avg_score (points_of "healthcare" six_clinics)
       == average_of_all (points_of "healthcare" six_clinics)
  /\ option_map Qred (PyDict.get (final_scores six_clinics) "healthcare")
     = Some 10
  /\ Qmin 10 (average_of_all (points_of "healthcare" six_clinics)
              + availability_bonus (points_of "healthcare" six_clinics))
     == 113 # 12.
Proof.
  repeat apply conj; try reflexivity.
  vm_compute. discriminate.
Qed.

End ScoringFacts.

Module CacheFacts.
Import Cache.
Open Scope Z_scope.

(** *** Glob matching *)

Lemma append_cons (c : ascii) (s1 s2 : string) :
  String c s1 ++ s2 = String c (s1 ++ s2).
Proof. reflexivity. Qed.

Lemma append_nil (s : string) : "" ++ s = s.
Proof. reflexivity. Qed.

Lemma append_nil_r (s : string) : s ++ "" = s.
Proof.
  induction s as [| c s IH]; [reflexivity |].
  now rewrite append_cons, IH.
Qed.

Lemma append_assoc (s1 s2 s3 : string) : (s1 ++ s2) ++ s3 = s1 ++ (s2 ++ s3).
Proof.
  induction s1 as [| c s1 IH]; [reflexivity |].
  now rewrite !append_cons, IH.
Qed.

Lemma glob_star_unfold (p s : string) :
  glob_match (String "*" p) s
  = glob_match p s
    || match s with
       | EmptyString => false
       | String _ s' => glob_match (String "*" p) s'
       end.
Proof. destruct s; reflexivity. Qed.

Lemma glob_star_skip (p s1 s2 : string) :
  glob_match p s2 = true -> glob_match (String "*" p) (s1 ++ s2) = true.
Proof.
  intros H. induction s1 as [| c s1 IH]; rewrite glob_star_unfold.
  - rewrite append_nil. now rewrite H.
  - rewrite append_cons, IH. apply orb_true_r.
Qed.

Lemma glob_star_any (s : string) : glob_match "*" s = true.
Proof.
  rewrite <- (append_nil_r s) at 1.
  now apply glob_star_skip.
Qed.

Lemma glob_literal (lit p s : string) :
  star_free lit = true ->
  glob_match (lit ++ p) (lit ++ s) = glob_match p s.
Proof.
  induction lit as [| c lit IH]; [reflexivity |].
  rewrite !append_cons. simpl. intros H.
  apply andb_true_iff in H as [Hc Hl].
  apply negb_true_iff in Hc. rewrite Hc, Ascii.eqb_refl. simpl. now apply IH.
Qed.

Lemma star_free_uint (d : Decimal.uint) :
  star_free (NilEmpty.string_of_uint d) = true.
Proof. induction d; simpl; auto. Qed.

Lemma star_free_str_of_int (n : Z) : star_free (str_of_int n) = true.
Proof.
  unfold str_of_int, NilZero.string_of_int.
  destruct (Z.to_int n) as [d | d]; simpl;
    destruct d; simpl; auto using star_free_uint.
Qed.

(** The pattern of [clear_municipality_cache] matches every key that
    [_generate_key] makes for an identifier whose decimal writing begins with
    that of [municipality_id]: the identifier itself, and any longer one. *)
Lemma pattern_matches_extensions (municipality_id : Z) (prefix digits additional : string) :
  glob_match ("ibge:*:" ++ str_of_int municipality_id ++ "*")
    ("ibge:" ++ prefix ++ ":" ++ str_of_int municipality_id ++ digits
       ++ additional) = true.
Proof.
  change ("ibge:*:" ++ str_of_int municipality_id ++ "*")
    with ("ibge:" ++ String "*" ((":" ++ str_of_int municipality_id) ++ "*")).
  rewrite glob_literal by reflexivity.
  apply glob_star_skip.
  change (":" ++ str_of_int municipality_id ++ digits ++ additional)
    with ((":" ++ str_of_int municipality_id) ++ digits ++ additional).
  rewrite glob_literal.
  - apply glob_star_any.
  - change (star_free (str_of_int municipality_id) = true).
    apply star_free_str_of_int.
Qed.

(** Every entry of the identifier, whatever its namespace and variant, is
    matched. *)
Lemma pattern_matches_generated_keys (municipality_id : Z) (prefix additional : string) :
  glob_match ("ibge:*:" ++ str_of_int municipality_id ++ "*")
    (_generate_key prefix municipality_id additional) = true.
Proof.
  unfold _generate_key. cbv zeta. destruct (negb (additional =? "")%string).
  - rewrite !append_assoc.
    apply (pattern_matches_extensions municipality_id prefix "" (":" ++ additional)).
  - pose proof (pattern_matches_extensions municipality_id prefix "" "") as H.
    simpl in H. now rewrite append_nil_r in H.
Qed.

(** *** Deleting keys *)

Lemma redis_del_lookup_in (db : gmap string entry) (now : Z) (keys : list string)
    (key : string) :
  In key keys -> fst (redis_del db now keys) !! key = None.
Proof.
  revert db. induction keys as [| k rest IH]; intros db; simpl; [intros [] |].
  intros [-> | H]; [| now apply IH].
  destruct (in_dec string_dec key rest) as [Hin | Hnin]; [now apply IH |].
  clear IH. revert db. induction rest as [| k' rest IH]; intros db; simpl.
  - apply lookup_delete_eq.
  - assert (key <> k') by (intros ->; apply Hnin; now left).
    rewrite delete_delete. apply IH. intros Hx. apply Hnin. now right.
Qed.

Lemma redis_del_lookup_out (db : gmap string entry) (now : Z) (keys : list string)
    (key : string) :
  ~ In key keys -> fst (redis_del db now keys) !! key = db !! key.
Proof.
  revert db. induction keys as [| k rest IH]; intros db; simpl; [reflexivity |].
  intros H. rewrite IH by (intros Hx; apply H; now right).
  apply lookup_delete_ne. intros ->. apply H. now left.
Qed.

Lemma redis_keys_spec (db : gmap string entry) (now : Z) (pattern key : string) :
  In key (redis_keys db now pattern) <->
  exists e, db !! key = Some e /\ key_matches now pattern key e = true.
Proof.
  unfold redis_keys. rewrite in_map_iff. split.
  - intros ([k e] & <- & H). apply List.filter_In in H as [H1 H2].
    exists e. split; [| exact H2].
    now apply elem_of_map_to_list, list_elem_of_In.
  - intros (e & H1 & H2). exists (key, e). split; [reflexivity |].
    apply List.filter_In. split; [| exact H2].
    now apply list_elem_of_In, elem_of_map_to_list.
Qed.

Lemma redis_keys_NoDup (db : gmap string entry) (now : Z) (pattern : string) :
  NoDup (redis_keys db now pattern).
Proof.
  unfold redis_keys. pose proof (NoDup_fst_map_to_list db) as H.
  induction (map_to_list db) as [| [k e] l IH]; simpl in *; [constructor |].
  apply NoDup_cons in H as [Hk Hl].
  destruct (key_matches now pattern k e); simpl; [| now apply IH].
  apply NoDup_cons. split; [| now apply IH].
  intros Hin. apply Hk. apply list_elem_of_In in Hin. apply list_elem_of_In.
  apply in_map_iff in Hin as (kv & E & Hkv). apply List.filter_In in Hkv as [Hkv _].
  apply in_map_iff. now exists kv.
Qed.

(** [DEL] counts every key when the keys are distinct and live. *)
Lemma redis_del_count (db : gmap string entry) (now : Z) (keys : list string) :
  NoDup keys ->
  (forall key, In key keys -> redis_get db now key <> None) ->
  snd (redis_del db now keys) = Z.of_nat (length keys).
Proof.
  revert db. induction keys as [| k rest IH]; intros db Hnd Hlive; [reflexivity |].
  apply NoDup_cons in Hnd as [Hk Hrest]. cbn [redis_del snd length].
  rewrite IH; [| assumption |].
  - destruct (redis_get db now k) eqn:E; [lia |].
    exfalso. apply (Hlive k); [now left | assumption].
  - intros key Hin. unfold redis_get. rewrite lookup_delete_ne.
    + apply Hlive. now right.
    + intros ->. apply Hk. now apply list_elem_of_In.
Qed.

(** *** [clear_municipality_cache] *)

(** The count returned is the number of live keys that match the pattern. *)
Lemma clear_municipality_cache_count (db : gmap string entry) (now : Z)
    (municipality_id : Z) :
  snd (clear_municipality_cache (connected db) now municipality_id)
  = Z.of_nat (length (redis_keys db now
                        ("ibge:*:" ++ str_of_int municipality_id ++ "*"))).
Proof.
  unfold clear_municipality_cache, connected. cbn [enabled redis_client].
  set (pattern := "ibge:*:" ++ str_of_int municipality_id ++ "*").
  pose proof (redis_keys_NoDup db now pattern) as Hnd.
  pose proof (redis_keys_spec db now pattern) as Hkeys.
  destruct (redis_keys db now pattern) as [| k ks] eqn:Ek; [reflexivity |].
  cbn [snd]. apply redis_del_count; [assumption |].
  intros key Hin. apply Hkeys in Hin as (e & He & Hm).
  unfold key_matches in Hm. apply andb_true_iff in Hm as [_ Hl].
  unfold redis_get. now rewrite He, Hl.
Qed.

(** What the call does to a connected cache: no live key matching the
    pattern remains, and a key that does not match keeps its entry. *)
Lemma clear_municipality_cache_effect (db : gmap string entry) (now : Z)
    (municipality_id : Z) :
  exists db',
    fst (clear_municipality_cache (connected db) now municipality_id)
    = connected db'
    /\ (forall key,
          glob_match ("ibge:*:" ++ str_of_int municipality_id ++ "*") key = true ->
          redis_get db' now key = None)
    /\ (forall key,
          glob_match ("ibge:*:" ++ str_of_int municipality_id ++ "*") key = false ->
          db' !! key = db !! key).
Proof.
  unfold clear_municipality_cache, connected. cbn [enabled redis_client].
  set (pattern := "ibge:*:" ++ str_of_int municipality_id ++ "*").
  pose proof (redis_keys_spec db now pattern) as Hkeys.
  assert (Hout : forall key, glob_match pattern key = false ->
                             ~ In key (redis_keys db now pattern)).
  { intros key Hm Hin. apply Hkeys in Hin as (e & _ & He).
    unfold key_matches in He. rewrite Hm in He. discriminate. }
  assert (Hmiss : forall key, glob_match pattern key = true ->
                              ~ In key (redis_keys db now pattern) ->
                              redis_get db now key = None).
  { intros key Hm Hnin. unfold redis_get.
    destruct (db !! key) as [e |] eqn:E; [| reflexivity].
    destruct (live now e) eqn:L; [| reflexivity].
    exfalso. apply Hnin, Hkeys. exists e. split; [assumption |].
    unfold key_matches. now rewrite Hm, L. }
  destruct (redis_keys db now pattern) as [| k ks] eqn:Ek.
  - exists db. cbn [fst]. split; [reflexivity |]. split.
    + intros key Hm. apply Hmiss; [assumption | intros []].
    + reflexivity.
  - exists (fst (redis_del db now (k :: ks))). cbn [fst]. split; [reflexivity |].
    split.
    + intros key Hm. destruct (in_dec string_dec key (k :: ks)) as [Hin | Hnin].
      * unfold redis_get. now rewrite redis_del_lookup_in.
      * specialize (Hmiss key Hm Hnin). unfold redis_get in *.
        now rewrite redis_del_lookup_out.
    + intros key Hm. apply redis_del_lookup_out. now apply Hout.
Qed.

(** All the entries of the identifier are gone afterwards. *)
Lemma clear_municipality_cache_removes_own (db : gmap string entry) (now : Z)
    (municipality_id : Z) (key_type additional : string) :
  get (fst (clear_municipality_cache (connected db) now municipality_id)) now
    key_type municipality_id additional = None.
Proof.
  destruct (clear_municipality_cache_effect db now municipality_id)
    as (db' & -> & Hgone & _).
  unfold get, connected. cbn [enabled redis_client].
  apply Hgone, pattern_matches_generated_keys.
Qed.

(** So are the entries of every identifier whose decimal writing extends that
    of [municipality_id]. *)
Lemma clear_municipality_cache_removes_extensions (db : gmap string entry)
    (now : Z) (municipality_id other : Z) (digits key_type : string) :
  str_of_int other = str_of_int municipality_id ++ digits ->
  get (fst (clear_municipality_cache (connected db) now municipality_id)) now
    key_type other "" = None.
Proof.
  intros Hother.
  destruct (clear_municipality_cache_effect db now municipality_id)
    as (db' & -> & Hgone & _).
  unfold get, connected. cbn [enabled redis_client].
  apply Hgone. unfold _generate_key. cbn [String.eqb negb]. rewrite Hother.
  pose proof (pattern_matches_extensions municipality_id key_type digits "") as H.
  now rewrite append_nil_r in H.
Qed.

(** C6 (the code departs from the specification): clearing municipality 330 on a cache
    that also holds Itaperuna (3302205) and São Paulo (3550308) reports three
    deleted keys; the two entries of Itaperuna, another municipality, are
    deleted along with the entry of 330, and only São Paulo's is left. *)
Theorem clear_municipality_cache_hits_longer_ids :
  get (connected sample_db) 0 "population" 3302205 ""
  = Some (sample_payload 3302205)
  /\ get (connected sample_db) 0 "area" 3302205 "" = Some (sample_payload 3302205)
  /\ snd (clear_municipality_cache (connected sample_db) 0 330) = 3
  /\ get (fst (clear_municipality_cache (connected sample_db) 0 330)) 0
       "population" 330 "" = None
  /\ get (fst (clear_municipality_cache (connected sample_db) 0 330)) 0
       "population" 3302205 "" = None
  /\ get (fst (clear_municipality_cache (connected sample_db) 0 330)) 0
       "area" 3302205 "" = None
  /\ get (fst (clear_municipality_cache (connected sample_db) 0 330)) 0
       "population" 3550308 "" = Some (sample_payload 3550308).
Proof. vm_compute. repeat split; reflexivity. Qed.

(** *** [set] followed by [get] *)

Lemma default_ttl_pos (key_type : string) : 0 < ttl_for key_type None.
Proof.
  cbv [ttl_for PyDict.get_default PyDict.get TTL_SETTINGS CACHE_TTL].
  repeat match goal with
         | |- context [String.eqb ?a ?b] => destruct (String.eqb a b)
         end; reflexivity.
Qed.

(** C7 (as the code has it): on a connected cache, [set] succeeds, and a [get]
    of the same namespace, identifier and variant at an instant before the
    TTL has elapsed returns the stored payload extended with the
    [_cached_at] and [_cache_ttl] entries, equal to the payload on every
    other key; a [get] after the TTL has elapsed is a miss. On a disabled
    cache every [get] is a miss. *)
Theorem set_get_round_trip_when_connected (db : gmap string entry) (now t : Z)
    (key_type : string) (municipality_id : Z) (data : gmap string json)
    (additional : string) :
  let ttl := ttl_for key_type None in
  let after := set (connected db) now key_type municipality_id data additional None in
  0 < ttl
  /\ snd after = true
  /\ (now <= t < now + ttl ->
      get (fst after) t key_type municipality_id additional
      = Some (data_with_metadata data now ttl))
  /\ (forall k, k <> "_cached_at" -> k <> "_cache_ttl" ->
      data_with_metadata data now ttl !! k = data !! k)
  /\ (now + ttl < t ->
      get (fst after) t key_type municipality_id additional = None)
  /\ get disabled t key_type municipality_id additional = None.
Proof.
  intros ttl after. pose proof (default_ttl_pos key_type) as Hpos. fold ttl in Hpos.
  assert (Hafter : after
    = (connected (<[_generate_key key_type municipality_id additional :=
                      {| value := data_with_metadata data now ttl;
                         expires_at := now + ttl |}]> db), true)).
  { unfold after, set, connected, redis_setex. cbn [enabled redis_client].
    fold ttl. destruct (ttl <=? 0) eqn:E; [lia | reflexivity]. }
  rewrite Hafter. cbn [fst snd]. unfold get, connected, redis_get.
  cbn [enabled redis_client]. rewrite lookup_insert_eq. unfold live.
  cbn [expires_at value]. repeat apply conj.
  - exact Hpos.
  - reflexivity.
  - intros Ht. destruct (t <=? now + ttl) eqn:E; [reflexivity | lia].
  - intros k H1 H2. unfold data_with_metadata.
    rewrite lookup_insert_ne by congruence. now rewrite lookup_insert_ne by congruence.
  - intros Ht. destruct (t <=? now + ttl) eqn:E; [lia | reflexivity].
  - reflexivity.
Qed.

Lemma set_get_round_trip_when_connected_witness :
  get (fst (set (connected sample_db) 10 "population" 3550308
              (sample_payload 3550308) "" None))
      86400 "population" 3550308 ""
  = Some (data_with_metadata (sample_payload 3550308) 10 (ttl_for "population" None)).
Proof.
  apply (set_get_round_trip_when_connected sample_db 10 86400 "population"
           3550308 (sample_payload 3550308) "").
  vm_compute. split; [discriminate | reflexivity].
Defined.

(** C7 (as stated, refuted): on a disabled cache [set] stores nothing and the
    [get] that follows is a miss; and on a connected cache the [get] returns
    a dictionary with two more keys than the payload stored. *)
Lemma set_get_round_trip_fails :
  set disabled 10 "population" 3550308 (sample_payload 3550308) "" None
  = (disabled, false)
  /\ get disabled 10 "population" 3550308 "" = None
  /\ get (fst (set (connected ∅) 10 "population" 3550308
                 (sample_payload 3550308) "" None))
       10 "population" 3550308 ""
     = Some (<["_cache_ttl" := JInt 2592000]>
               (<["_cached_at" := JStr "10"]> (sample_payload 3550308)))
  /\ size (<["_cache_ttl" := JInt 2592000]>
             (<["_cached_at" := JStr "10"]> (sample_payload 3550308))) = 3%nat
  /\ size (sample_payload 3550308) = 1%nat.
Proof. vm_compute. repeat split; reflexivity. Qed.

End CacheFacts.

Module GatewayFacts.
Import Gateway.

Lemma make_request_on_error (self : GooglePlacesService) (net : transport) :
  no_api_key self = false -> provider_error net = true ->
  (exists status_code, _make_request self net = RaisesHTTPException status_code)
  \/ (exists result, _make_request self net = Returns result
                     /\ status_is_OK result = false).
Proof.
  intros Hk He. unfold _make_request. rewrite Hk.
  destruct net as [status result | message | message]; simpl in *.
  - destruct (negb (status =? 200)%Z); [left; eauto |].
    right. exists result. split; [reflexivity |].
    now apply negb_true_iff in He.
  - left; eauto.
  - discriminate.
Qed.

Lemma mock_places_types (latitude longitude : Q) (t : string) :
  exists hospital school,
    mock_places latitude longitude = [hospital; school]
    /\ has_type t hospital
       = (String.eqb "hospital" t || (String.eqb "health" t || false))
    /\ has_type t school
       = (String.eqb "school" t || (String.eqb "education" t || false)).
Proof. eexists _, _. repeat split; reflexivity. Qed.

Lemma mock_places_of_type (latitude longitude : Q) (t : string) :
  List.filter (has_type t) (mock_places latitude longitude) = []
  <-> ~ In t ["hospital"; "health"; "school"; "education"].
Proof.
  destruct (mock_places_types latitude longitude t)
    as (hospital & school & -> & E1 & E2).
  cbn [List.filter]. rewrite E1, E2. clear E1 E2.
  destruct (String.eqb_spec "hospital" t) as [H1 | H1];
    destruct (String.eqb_spec "health" t) as [H2 | H2];
    destruct (String.eqb_spec "school" t) as [H3 | H3];
    destruct (String.eqb_spec "education" t) as [H4 | H4];
    cbn [orb]; (split; [intros E | intros H]);
    try discriminate E; try reflexivity;
    try (exfalso; apply H; cbn [In]; tauto).
  intros [<- | [<- | [<- | [<- | []]]]]; congruence.
Qed.

(** C5 (as the code has it): without an API key the two adapters answer from
    fixed mock data, whatever the network would do: [geocode_address] returns
    the made-up record, [get_nearby_places] the two made-up places, or, when
    a place type is requested, those of the two that have the type, which is
    the empty list exactly for a type other than hospital, health, school and
    education. With a key, a provider error (an [aiohttp.ClientError], or an
    answer with a JSON object as body whose HTTP status is not 200 or whose
    status is not ["OK"]) makes [geocode_address] return [None] and
    [get_nearby_places] return the empty list, without raising. *)
Theorem adapters_without_key_or_on_provider_error
    (self : GooglePlacesService) (net : transport) (address : string)
    (latitude longitude : Q) (radius : Z) (keyword : option string) :
  (no_api_key self = true ->
   geocode_address self net address = Returns (mock_geocode address)
   /\ (forall place_type,
         place_type = None \/ place_type = Some "" ->
         get_nearby_places self net latitude longitude place_type radius keyword
         = Returns (JList (map JDict (mock_places latitude longitude))))
   /\ (forall t,
         t <> "" ->
         get_nearby_places self net latitude longitude (Some t) radius keyword
         = Returns (JList (map JDict (List.filter (has_type t)
                                        (mock_places latitude longitude))))
         /\ (get_nearby_places self net latitude longitude (Some t) radius keyword
             = Returns (JList [])
             <-> ~ In t ["hospital"; "health"; "school"; "education"])))
  /\ (no_api_key self = false -> provider_error net = true ->
      geocode_address self net address = Returns JNull
      /\ forall place_type,
           get_nearby_places self net latitude longitude place_type radius keyword
           = Returns (JList [])).
Proof.
  split.
  - intros Hk. unfold geocode_address, get_nearby_places. rewrite Hk.
    split; [reflexivity |]. split.
    + now intros place_type [-> | ->].
    + intros t Ht. apply String.eqb_neq in Ht. rewrite Ht. cbn [negb].
      split; [reflexivity |].
      rewrite <- (mock_places_of_type latitude longitude t). split.
      * intros E.
        destruct (List.filter (has_type t) (mock_places latitude longitude));
          [reflexivity | discriminate E].
      * now intros ->.
  - intros Hk He. unfold geocode_address, get_nearby_places. rewrite Hk.
    destruct (make_request_on_error self net Hk He)
      as [[status_code ->] | (result & -> & Hs)].
    + split; reflexivity.
    + rewrite Hs. split; [| reflexivity].
      now destruct (PyDict.get result "results").
Qed.

Lemma adapters_without_key_or_on_provider_error_witness :
  geocode_address {| api_key := Some "k3y" |}
    (Response 200 [("status", JStr "OVER_QUERY_LIMIT"); ("results", JList [])])
    "Rua A" = Returns JNull
  /\ forall place_type,
       get_nearby_places {| api_key := Some "k3y" |}
         (Response 200 [("status", JStr "OVER_QUERY_LIMIT"); ("results", JList [])])
         0 0 place_type 1000 None = Returns (JList []).
Proof.
  apply (adapters_without_key_or_on_provider_error {| api_key := Some "k3y" |}
           (Response 200 [("status", JStr "OVER_QUERY_LIMIT"); ("results", JList [])])
           "Rua A" 0%Q 0%Q 1000%Z None); reflexivity.
Defined.

(** C5 (as stated, refuted): with no API key configured, geocoding an address
    returns a made-up record located in São Paulo instead of [None], and the
    nearby search returns two made-up places instead of the empty list. *)
Lemma missing_key_returns_mock_data :
  geocode_address {| api_key := None |} (ClientError "offline") "Rua A, 1"
  = Returns (mock_geocode "Rua A, 1")
  /\ PyDict.get
       match mock_geocode "Rua A, 1" with JDict d => d | _ => [] end
       "formatted_address"
     = Some (JStr "Mock result for: Rua A, 1")
  /\ geocode_address {| api_key := None |} (ClientError "offline") "Rua A, 1"
     <> Returns JNull
  /\ get_nearby_places {| api_key := None |} (ClientError "offline")
       0 0 None 1000 None
     = Returns (JList (map JDict (mock_places 0 0)))
  /\ map (fun p => PyDict.get p "name") (mock_places 0 0)
     = [Some (JStr "Hospital Mock"); Some (JStr "Escola Mock")]
  /\ get_nearby_places {| api_key := None |} (ClientError "offline")
       0 0 None 1000 None
     <> Returns (JList []).
Proof. repeat split; try reflexivity; discriminate. Qed.

End GatewayFacts.

Module IbgeFacts.
Import Ibge.

(** C4 (as the code has it): when the population fetch fails and the area and
    density fetches succeed, the composite record has [population] absent
    and [area] and [density] intact; it has no entry for the error, being the
    very record obtained when the population fetch returns [None]; and no
    outcome of the five fetches, not even the failure of all, turns the record
    into the aggregate failure [{"error": ...}]. *)
Theorem failed_population_leaves_no_error (municipality_id : Z)
    (basic_info economic_indicators : gathered) (a d : json) (e : string) :
  let result :=
    get_complete_municipality_data municipality_id basic_info (Exception e)
      (Value a) (Value d) economic_indicators in
  PyDict.get result "population" = Some JNull
  /\ PyDict.get result "area" = Some a
  /\ PyDict.get result "density" = Some d
  /\ PyDict.keys result
     = ["municipality_id"; "basic_info"; "population"; "area"; "density";
        "economic_indicators"; "last_updated"; "data_sources"]
  /\ result
     = get_complete_municipality_data municipality_id basic_info (Value JNull)
         (Value a) (Value d) economic_indicators
  /\ (forall bi p ar de ec,
        PyDict.get (get_complete_municipality_data municipality_id bi p ar de ec)
          "error" = None).
Proof. repeat split. Qed.

(** C4 (as stated, refuted): the record built when the population fetch times
    out is the record built when it fails with an HTTP error, so the error
    cannot be read off the record. *)
Lemma population_error_not_recorded :
  get_complete_municipality_data 3302205 (Value (JStr "Itaperuna"))
    (Exception "timeout") (Value (JFloat 1105.3)) (Value (JFloat 86.7)) (Value (JDict []))
  = get_complete_municipality_data 3302205 (Value (JStr "Itaperuna"))
      (Exception "HTTP 500") (Value (JFloat 1105.3)) (Value (JFloat 86.7)) (Value (JDict []))
  /\ ~ exists read : list (string * json) -> string,
         forall e,
           read (get_complete_municipality_data 3302205 (Value (JStr "Itaperuna"))
                   (Exception e) (Value (JFloat 1105.3)) (Value (JFloat 86.7))
                   (Value (JDict [])))
           = e.
Proof.
  split; [reflexivity |]. intros [read H].
  assert (E : "timeout" = "HTTP 500")
    by (rewrite <- (H "timeout"), <- (H "HTTP 500"); reflexivity).
  discriminate E.
Qed.

End IbgeFacts.

Module AdminFacts.
Import Admin.
Open Scope Z_scope.

Lemma fold_step (loads : Z -> bool) (ids : list Z) (st : stats) :
  let st' := fold_left (step loads) ids st in
  processed st' = processed st + count loads ids
  /\ cached st' = cached st + count loads ids
  /\ errors st' = errors st + count (fun i => negb (loads i)) ids.
Proof.
  revert st. unfold count. induction ids as [| i ids IH]; intros st; simpl.
  - repeat split; lia.
  - destruct (IH (step loads st i)) as (Hp & Hc & He).
    rewrite Hp, Hc, He. unfold step.
    destruct (loads i); simpl length; cbn [processed cached errors negb];
      repeat split; lia.
Qed.

Lemma count_split (f : Z -> bool) (ids : list Z) :
  count f ids + count (fun i => negb (f i)) ids = Z.of_nat (length ids).
Proof.
  unfold count. induction ids as [| i ids IH]; simpl; [reflexivity |].
  destruct (f i); simpl length; lia.
Qed.

Lemma no_skipped_entry (loads : Z -> bool) (municipality_ids : list Z) :
  ~ reports_skipped (warm_up_cache loads municipality_ids).
Proof.
  unfold reports_skipped, warm_up_cache. cbn [PyDict.keys PyDict.get map fst].
  intros [H | (d & E & H)].
  - simpl in H. intuition discriminate.
  - cbn in E. injection E as <-. simpl in H. intuition discriminate.
Qed.

(** C9 (as the code has it): only the first 50 identifiers are processed:
    each counts as processed and cached, or as an error when loading it
    raises, and the identifiers beyond the first 50 change no counter. They
    are not reported either: the result has the entries [status],
    [statistics] (with [processed], [cached] and [errors]) and [message], none
    of which is about skipped identifiers, and the message gives the length of
    the whole request. *)
Theorem warm_up_processes_first_fifty (loads : Z -> bool) (municipality_ids : list Z) :
  let st := warm_up_stats loads municipality_ids in
  processed st = count loads (firstn 50 municipality_ids)
  /\ cached st = processed st
  /\ errors st = count (fun i => negb (loads i)) (firstn 50 municipality_ids)
  /\ processed st + errors st = Z.min 50 (Z.of_nat (length municipality_ids))
  /\ st = warm_up_stats loads (firstn 50 municipality_ids)
  /\ warm_up_cache loads municipality_ids
     = [ ("status", JStr "completed");
         ("statistics",
           JDict [ ("processed", JInt (processed st));
                   ("cached", JInt (cached st));
                   ("errors", JInt (errors st)) ]);
         ("message",
           JStr ("Warm-up concluído para "
                 ++ str_of_int (Z.of_nat (length municipality_ids))
                 ++ " municípios")) ]
  /\ ~ reports_skipped (warm_up_cache loads municipality_ids).
Proof.
  intros st.
  destruct (fold_step loads (firstn 50 municipality_ids)
              {| processed := 0; cached := 0; errors := 0 |}) as (Hp & Hc & He).
  fold (warm_up_stats loads municipality_ids) in Hp, Hc, He. fold st in Hp, Hc, He.
  cbn [processed cached errors] in Hp, Hc, He.
  repeat apply conj.
  - lia.
  - lia.
  - lia.
  - pose proof (count_split loads (firstn 50 municipality_ids)) as Hs.
    rewrite length_firstn in Hs. lia.
  - unfold st, warm_up_stats. rewrite firstn_firstn. reflexivity.
  - reflexivity.
  - apply no_skipped_entry.
Qed.

(** C9 (as stated, refuted): for the 75 identifiers 1 to 75, all of which load,
    the result counts 50 processed and no error, says that the warm-up was
    completed for 75 municipalities, and reports no identifier as skipped. *)
Lemma warm_up_does_not_report_skipped :
  length seventy_five = 75%nat
  /\ warm_up_cache (fun _ => true) seventy_five
     = [ ("status", JStr "completed");
         ("statistics",
           JDict [ ("processed", JInt 50); ("cached", JInt 50); ("errors", JInt 0) ]);
         ("message", JStr "Warm-up concluído para 75 municípios") ]
  /\ ~ reports_skipped (warm_up_cache (fun _ => true) seventy_five).
Proof.
  split; [reflexivity |]. split; [reflexivity |].
  apply no_skipped_entry.
Qed.

End AdminFacts.

Module AnalysisFacts.
Import Scoring Analysis.
Open Scope Q_scope.

(** *** The category scores *)

Lemma points_of_cons (category : string) (p : place) (rest : list place) :
  points_of category (p :: rest)
  = if classified_as category p
    then scored p category :: points_of category rest
    else points_of category rest.
Proof.
  unfold points_of. cbn [List.filter].
  now destruct (classified_as category p).
Qed.

Lemma collect_from_eq (nearby_places : list place)
    (acc : list (string * list scored_place)) :
  fold_left
    (fun category_scores p =>
       match Classifier.categorize_place (p_types p) with
       | Some category => append_to category (scored p category) category_scores
       | None => category_scores
       end) nearby_places acc
  = map (fun kv => (fst kv, (snd kv ++ points_of (fst kv) nearby_places)%list)) acc.
Proof.
  revert acc. induction nearby_places as [| p rest IH]; intros acc;
    cbn [fold_left].
  - induction acc as [| [k l] acc IHacc]; [reflexivity |].
    cbn [map fst snd]. rewrite <- IHacc. unfold points_of. cbn [List.filter map].
    now rewrite app_nil_r.
  - rewrite IH.
    destruct (Classifier.categorize_place (p_types p)) as [c |] eqn:Ec.
    + unfold append_to. rewrite map_map. apply map_ext. intros [k l].
      cbn [fst snd]. rewrite points_of_cons. unfold classified_as. rewrite Ec.
      rewrite (String.eqb_sym c k).
      destruct (String.eqb_spec k c) as [-> | Hne]; cbn [fst snd].
      * now rewrite <- app_assoc.
      * reflexivity.
    + apply map_ext. intros [k l]. cbn [fst snd].
      rewrite points_of_cons. unfold classified_as. now rewrite Ec.
Qed.

Lemma collect_eq (nearby_places : list place) :
  collect nearby_places
  = map (fun category => (category, points_of category nearby_places))
      (PyDict.keys infrastructure_weights).
Proof.
  unfold collect. rewrite collect_from_eq, map_map. reflexivity.
Qed.

Lemma final_scores_eq (nearby_places : list place) :
  final_scores nearby_places
  = map (fun category =>
           (category, ca_score (analyze_category (points_of category nearby_places))))
      (PyDict.keys infrastructure_weights).
Proof.
  unfold final_scores, detailed_analysis. rewrite collect_eq, !map_map.
  reflexivity.
Qed.

Lemma point_score_range (category : string) (nearby_places : list place)
    (x : scored_place) :
  In x (points_of category nearby_places) -> 0 <= score x <= 10.
Proof.
  unfold points_of. rewrite in_map_iff. intros (p & <- & _). simpl.
  rewrite ProximityFacts.score_as_unit_curve.
  apply ProximityFacts.unit_curve_range.
Qed.

Lemma len_cons (x : scored_place) (l : list scored_place) :
  len (x :: l) == 1 + len l.
Proof.
  unfold len. cbn [length]. rewrite Nat2Z.inj_succ, <- Z.add_1_l, inject_Z_plus.
  reflexivity.
Qed.

Lemma len_nonneg (l : list scored_place) : 0 <= len l.
Proof.
  unfold len. change 0 with (inject_Z 0). rewrite <- Zle_Qle. lia.
Qed.

Lemma sum_of_range (f : scored_place -> Q) (l : list scored_place) :
  (forall x, In x l -> 0 <= f x <= 10) ->
  0 <= sum_of f l <= 10 * len l.
Proof.
  induction l as [| x l IH]; intros H.
  - unfold sum_of, len. simpl. split; [apply Qle_refl | discriminate].
  - rewrite ScoringFacts.sum_of_cons, len_cons.
    destruct (H x (or_introl eq_refl)) as [H0 H10].
    destruct IH as [IH0 IH10]; [intros y Hy; apply H; now right |].
    split; lra.
Qed.

Lemma average_range (f : scored_place -> Q) (l : list scored_place) :
  (forall x, In x l -> 0 <= f x <= 10) ->
  0 <= sum_of f l / len l <= 10.
Proof.
  intros H. destruct (sum_of_range f l H) as [H0 H10].
  destruct l as [| x l].
  - unfold sum_of, len. simpl. split; discriminate.
  - assert (Hpos : 0 < len (x :: l)).
    { rewrite len_cons. pose proof (len_nonneg l). lra. }
    split.
    + apply Qle_shift_div_l; [assumption | lra].
    + apply Qle_shift_div_r; [assumption | lra].
Qed.

Lemma top_places_incl (places : list scored_place) (x : scored_place) :
  In x (top_places places) -> In x places.
Proof.
  unfold top_places. intros H.
  apply (Permutation_in _ (Permutation_sym (ScoringFacts.sorted_by_distance_perm places))).
  rewrite <- (firstn_skipn 5 (sorted_by_distance places)).
  apply in_or_app. now left.
Qed.

Lemma availability_bonus_range (places : list scored_place) :
  0 <= availability_bonus places <= 1 # 2.
Proof.
  unfold availability_bonus. pose proof (len_nonneg places) as Hl.
  assert (E : len places / 3 == (1 # 3) * len places) by field.
  revert E. generalize (len places / 3). intros q E.
  destruct (Q.min_spec 1 q) as [[? M] | [? M]]; rewrite M; split; lra.
Qed.

Lemma final_score_range (category : string) (nearby_places : list place) :
  0 <= ca_score (analyze_category (points_of category nearby_places)) <= 10.
Proof.
  destruct (points_of category nearby_places) as [| x l] eqn:E.
  - simpl. split; [apply Qle_refl | discriminate].
  - cbn [analyze_category ca_score]. unfold final_score, avg_score.
    rewrite <- E.
    assert (Ha : 0 <= sum_of score (top_places (points_of category nearby_places))
                      / len (top_places (points_of category nearby_places)) <= 10).
    { apply average_range. intros y Hy.
      apply (point_score_range category nearby_places).
      now apply top_places_incl. }
    pose proof (availability_bonus_range (points_of category nearby_places)) as Hb.
    revert Ha Hb.
    generalize (sum_of score (top_places (points_of category nearby_places))
                / len (top_places (points_of category nearby_places))).
    generalize (availability_bonus (points_of category nearby_places)).
    intros b a Ha Hb.
    destruct (Q.min_spec 10 (a + b)) as [[? M] | [? M]]; rewrite M; split; lra.
Qed.

Lemma get_tabulate_Some {A : Type} (g : string -> A) (ks : list string)
    (c : string) (v : A) :
  PyDict.get (map (fun k => (k, g k)) ks) c = Some v -> v = g c /\ In c ks.
Proof.
  induction ks as [| k ks IH]; simpl; [discriminate |].
  destruct (String.eqb_spec k c) as [-> | Hne].
  - intros [= <-]. split; [reflexivity | now left].
  - intros H. destruct (IH H) as [-> Hin]. split; [reflexivity | now right].
Qed.

Lemma get_tabulate_In {A : Type} (g : string -> A) (ks : list string) (c : string) :
  In c ks -> PyDict.get (map (fun k => (k, g k)) ks) c = Some (g c).
Proof.
  induction ks as [| k ks IH]; simpl; [intros [] |].
  destruct (String.eqb_spec k c) as [-> | Hne]; [reflexivity |].
  intros [-> | H]; [contradiction | now apply IH].
Qed.

(** X1: whatever the nearby search returns, the analysis has a score for each
    of the seven categories, in the order of the weights, and every category
    score lies between 0 and 10. *)
Theorem category_scores_complete_and_bounded (nearby_places : list place) :
  PyDict.keys (final_scores nearby_places)
  = ["healthcare"; "education"; "transportation"; "shopping";
     "services"; "recreation"; "dining"]
  /\ forall category s,
       PyDict.get (final_scores nearby_places) category = Some s ->
       0 <= s <= 10.
Proof.
  rewrite final_scores_eq. split; [reflexivity |].
  intros category s H. apply get_tabulate_Some in H as [-> _].
  apply final_score_range.
Qed.

(** X2: the overall score, the weighted sum of the seven category scores, lies
    between 0 and 10. *)
Theorem overall_score_bounded (nearby_places : list place) :
  0 <= overall_score nearby_places <= 10.
Proof.
  unfold overall_score. rewrite final_scores_eq.
  cbv [PyDict.keys infrastructure_weights map fst snd fold_left].
  pose proof (final_score_range "healthcare" nearby_places).
  pose proof (final_score_range "education" nearby_places).
  pose proof (final_score_range "transportation" nearby_places).
  pose proof (final_score_range "shopping" nearby_places).
  pose proof (final_score_range "services" nearby_places).
  pose proof (final_score_range "recreation" nearby_places).
  pose proof (final_score_range "dining" nearby_places).
  change (weight_of "healthcare") with 0.25.
  change (weight_of "education") with 0.20.
  change (weight_of "transportation") with 0.15.
  change (weight_of "shopping") with 0.15.
  change (weight_of "services") with 0.10.
  change (weight_of "recreation") with 0.10.
  change (weight_of "dining") with 0.05.
  split; lra.
Qed.

Lemma unclassified_points_of (nearby_places : list place) (category : string) :
  (forall p, In p nearby_places ->
             Classifier.categorize_place (p_types p) = None) ->
  points_of category nearby_places = [].
Proof.
  intros H. induction nearby_places as [| p rest IH]; [reflexivity |].
  rewrite points_of_cons. unfold classified_as.
  rewrite (H p (or_introl eq_refl)). apply IH.
  intros q Hq. apply H. now right.
Qed.

(** X3: when no returned place carries a recognised tag (in particular when
    the search returns nothing), every category has score 0, count 0 and no
    top place, and the overall score is 0. *)
Theorem unclassified_search_scores_zero (nearby_places : list place) :
  (forall p, In p nearby_places ->
             Classifier.categorize_place (p_types p) = None) ->
  detailed_analysis nearby_places
  = map (fun category =>
           (category, {| ca_score := 0; ca_count := 0; ca_top_places := [];
                         ca_average_distance := None |}))
      (PyDict.keys infrastructure_weights)
  /\ overall_score nearby_places == 0.
Proof.
  intros H.
  assert (E : detailed_analysis nearby_places
              = map (fun category =>
                       (category, {| ca_score := 0; ca_count := 0;
                                     ca_top_places := [];
                                     ca_average_distance := None |}))
                  (PyDict.keys infrastructure_weights)).
  { unfold detailed_analysis. rewrite collect_eq, map_map. apply map_ext.
    intros c. cbn [fst snd]. now rewrite (unclassified_points_of _ c H). }
  split; [exact E |].
  unfold overall_score, final_scores. rewrite E. reflexivity.
Qed.

Lemma unclassified_search_scores_zero_witness :
  overall_score
    [ {| p_name := "Mock result 1"; p_types := ["establishment"];
         p_distance := 120; p_rating := 4 |} ] == 0.
Proof.
  apply (unclassified_search_scores_zero
           [ {| p_name := "Mock result 1"; p_types := ["establishment"];
                p_distance := 120; p_rating := 4 |} ]).
  intros p [<- | []]. reflexivity.
Defined.

(** *** Counting the places *)

Lemma place_counts_from_eq (nearby_places : list place) (acc : list (string * Z)) :
  fold_left
    (fun counts p =>
       match Classifier.categorize_place (p_types p) with
       | Some category => increment category counts
       | None => counts
       end) nearby_places acc
  = map (fun kv => (fst kv,
                    (snd kv + Z.of_nat (length (points_of (fst kv) nearby_places)))%Z))
      acc.
Proof.
  revert acc. induction nearby_places as [| p rest IH]; intros acc;
    cbn [fold_left].
  - induction acc as [| [k n] acc IHacc]; [reflexivity |].
    cbn [map fst snd]. rewrite <- IHacc. unfold points_of. cbn [List.filter map length].
    now rewrite Z.add_0_r.
  - rewrite IH.
    destruct (Classifier.categorize_place (p_types p)) as [c |] eqn:Ec.
    + unfold increment. rewrite map_map. apply map_ext. intros [k n].
      cbn [fst snd]. rewrite points_of_cons. unfold classified_as. rewrite Ec.
      rewrite (String.eqb_sym c k).
      destruct (String.eqb_spec k c) as [-> | Hne]; cbn [fst snd length];
        f_equal; lia.
    + apply map_ext. intros [k n]. cbn [fst snd].
      rewrite points_of_cons. unfold classified_as. now rewrite Ec.
Qed.

Lemma place_counts_eq (nearby_places : list place) :
  place_counts nearby_places
  = map (fun category =>
           (category, Z.of_nat (length (points_of category nearby_places))))
      (PyDict.keys infrastructure_weights).
Proof.
  unfold place_counts. rewrite place_counts_from_eq, map_map. reflexivity.
Qed.

Lemma categorize_with_key (mapping : list (string * list string))
    (place_types : list string) (c : string) :
  Classifier.categorize_with mapping place_types = Some c ->
  In c (PyDict.keys mapping).
Proof.
  induction mapping as [| [category types] rest IH]; simpl; [discriminate |].
  destruct (Classifier.inner_loop place_types types).
  - intros [= <-]. now left.
  - intros H. right. now apply IH.
Qed.

Lemma categorize_place_key (place_types : list string) (c : string) :
  Classifier.categorize_place place_types = Some c ->
  In c (PyDict.keys infrastructure_weights).
Proof. intros H. apply categorize_with_key in H. exact H. Qed.

(** X4: every place with a recognised tag is counted in exactly one category:
    the count kept for a category is the number of its points, and
    [total_places_analyzed] is the number of classified places, at most the
    number of places returned. *)
Theorem total_places_analyzed_counts_classified (nearby_places : list place) :
  (forall category n,
     PyDict.get (place_counts nearby_places) category = Some n ->
     n = Z.of_nat (length (points_of category nearby_places)))
  /\ total_places_analyzed nearby_places
     = Z.of_nat (length (List.filter classified nearby_places))
  /\ (total_places_analyzed nearby_places <= Z.of_nat (length nearby_places))%Z.
Proof.
  assert (Ht : total_places_analyzed nearby_places
               = Z.of_nat (length (List.filter classified nearby_places))).
  { unfold total_places_analyzed. rewrite place_counts_eq.
    cbv [PyDict.keys infrastructure_weights map fst snd fold_left].
    induction nearby_places as [| p rest IH]; [reflexivity |].
    rewrite !points_of_cons. cbn [List.filter]. unfold classified_as.
    destruct (Classifier.categorize_place (p_types p)) as [c |] eqn:Ec.
    - replace (classified p) with true by (unfold classified; now rewrite Ec).
      apply categorize_place_key in Ec.
      cbv [PyDict.keys infrastructure_weights map fst] in Ec.
      cbn [length]. rewrite Nat2Z.inj_succ, <- IH.
      destruct Ec as [<- | [<- | [<- | [<- | [<- | [<- | [<- | []]]]]]]];
        cbn [String.eqb Ascii.eqb Bool.eqb length]; lia.
    - replace (classified p) with false by (unfold classified; now rewrite Ec).
      exact IH. }
  split; [| split].
  - intros category n H. rewrite place_counts_eq in H.
    now apply get_tabulate_Some in H as [-> _].
  - exact Ht.
  - rewrite Ht. apply inj_le, filter_length_le.
Qed.

(** *** The curves *)

Lemma scale_ge (d i k : Q) : 0 < i -> (k * i <= d <-> k <= d / i).
Proof.
  intros Hi. split; intros H.
  - now apply Qle_shift_div_l.
  - apply (Qle_trans _ (d / i * i)).
    + apply Qmult_le_compat_r; lra.
    + apply Qle_lteq; right; field; lra.
Qed.

(** X5: the proximity score of a facility is 0 exactly when it lies at twenty
    times the category's ideal distance or farther; closer facilities score
    more than 0. *)
Theorem proximity_score_zero_iff (distance : Q) (category : string) :
  Proximity.calculate_proximity_score distance category == 0
  <-> 20 * Proximity.ideal_dist_of category <= distance.
Proof.
  pose proof (ProximityFacts.ideal_dist_of_pos category) as Hi.
  rewrite ProximityFacts.score_as_unit_curve.
  rewrite (scale_ge distance _ 20 Hi).
  generalize (distance / Proximity.ideal_dist_of category). intros u.
  unfold Proximity.unit_curve.
  split; intros H; revert H; ProximityFacts.split_tests; intros; lra.
Qed.

(** X6: the availability bonus lies between 0 and 0.5, never decreases when
    the category has more points, and is 0.5 exactly when the category has
    three points or more. *)
Theorem availability_bonus_saturates (places more : list scored_place) :
  0 <= availability_bonus places <= 1 # 2
  /\ ((length places <= length more)%nat ->
      availability_bonus places <= availability_bonus more)
  /\ (availability_bonus places == 1 # 2 <-> (3 <= length places)%nat).
Proof.
  split; [apply availability_bonus_range |].
  unfold availability_bonus, len.
  assert (E : forall l : list scored_place,
            inject_Z (Z.of_nat (length l)) / 3
            == (1 # 3) * inject_Z (Z.of_nat (length l))) by (intros; field).
  split.
  - intros Hle. rewrite !E.
    assert (Hq : inject_Z (Z.of_nat (length places))
                 <= inject_Z (Z.of_nat (length more))).
    { rewrite <- Zle_Qle. lia. }
    revert Hq. generalize (inject_Z (Z.of_nat (length places))),
                          (inject_Z (Z.of_nat (length more))).
    intros a b Hq.
    destruct (Q.min_spec 1 ((1 # 3) * a)) as [[? M] | [? M]];
      destruct (Q.min_spec 1 ((1 # 3) * b)) as [[? M'] | [? M']];
      rewrite M, M'; lra.
  - rewrite E.
    assert (H3 : (3 <= length places)%nat
                 <-> 3 <= inject_Z (Z.of_nat (length places))).
    { change 3 with (inject_Z 3). rewrite <- Zle_Qle. lia. }
    rewrite H3. generalize (inject_Z (Z.of_nat (length places))). intros a.
    destruct (Q.min_spec 1 ((1 # 3) * a)) as [[? M] | [? M]]; rewrite M;
      split; intros; lra.
Qed.

Lemma accessibility_as_curve (facilities : list (option Q)) :
  facilities <> [] ->
  Proximity.calculate_accessibility_score facilities
  = accessibility_curve (avg_distance facilities).
Proof. destruct facilities; [contradiction | reflexivity]. Qed.

Ltac constant_divisions :=
  unfold Qdiv;
  change (/ 300) with (1 # 300); change (/ 400) with (1 # 400);
  change (/ 1000) with (1 # 1000).

Lemma accessibility_curve_range (a : Q) : 0 <= accessibility_curve a <= 10.
Proof.
  unfold accessibility_curve. constant_divisions.
  ProximityFacts.split_tests; lra.
Qed.

Lemma accessibility_curve_antitone (a b : Q) :
  a <= b -> accessibility_curve b <= accessibility_curve a.
Proof.
  intros H. unfold accessibility_curve. constant_divisions.
  ProximityFacts.split_tests; lra.
Qed.

Lemma accessibility_range (facilities : list (option Q)) :
  0 <= Proximity.calculate_accessibility_score facilities <= 10.
Proof.
  destruct facilities as [| f l].
  - simpl. split; [apply Qle_refl | discriminate].
  - rewrite accessibility_as_curve by discriminate.
    apply accessibility_curve_range.
Qed.

(** X7: the accessibility score is 0 for no facility, lies between 0 and 10,
    and for non-empty lists does not increase when the average distance
    grows (a facility without a distance counting for 1000 m). *)
Theorem accessibility_score_antitone_bounded (facilities others : list (option Q)) :
  Proximity.calculate_accessibility_score [] = 0
  /\ 0 <= Proximity.calculate_accessibility_score facilities <= 10
  /\ (facilities <> [] -> others <> [] ->
      avg_distance facilities <= avg_distance others ->
      Proximity.calculate_accessibility_score others
      <= Proximity.calculate_accessibility_score facilities).
Proof.
  split; [reflexivity |]. split; [apply accessibility_range |].
  intros H1 H2 Hle. rewrite !accessibility_as_curve by assumption.
  now apply accessibility_curve_antitone.
Qed.

Lemma accessibility_score_antitone_bounded_witness :
  Proximity.calculate_accessibility_score [Some 900; None]
  <= Proximity.calculate_accessibility_score [Some 200; Some 500].
Proof.
  apply (accessibility_score_antitone_bounded [Some 200; Some 500] [Some 900; None]);
    vm_compute; discriminate.
Defined.

(** *** Insights *)



(** *** The details endpoint *)

Lemma is_category_keys (category : string) :
  is_category category = true -> In category (PyDict.keys infrastructure_weights).
Proof.
  unfold is_category.
  destruct (PyDict.get infrastructure_weights category) as [w |] eqn:E;
    [intros _ | discriminate].
  revert E. generalize infrastructure_weights. intros d.
  induction d as [| [k v] d IH]; simpl; [discriminate |].
  destruct (String.eqb_spec k category) as [-> | Hne]; [now left |].
  intros H. right. now apply IH.
Qed.

Lemma top_places_length (places : list scored_place) :
  (length (top_places places) <= 5)%nat.
Proof. unfold top_places. rewrite length_firstn. lia. Qed.

Lemma top_places_of_analysis (places : list scored_place) :
  ca_top_places (analyze_category places) = top_places places.
Proof. now destruct places. Qed.

(** X9: the details endpoint answers 400 for a category that is not one of
    the seven; otherwise it lists at most five facilities, the category
    score, the accessibility score and the convenience score lie between 0
    and 10, and the coverage score is twice the number of facilities
    listed. *)
Theorem infrastructure_details_bounded
    (searched_for_score searched_for_facilities : list place) (category : string) :
  (is_category category = false ->
   get_infrastructure_details searched_for_score searched_for_facilities category
   = HTTPException 400)
  /\ (is_category category = true ->
      exists d,
        get_infrastructure_details searched_for_score searched_for_facilities category
        = Ok d
        /\ d_facilities d = top_places (points_of category searched_for_facilities)
        /\ (length (d_facilities d) <= 5)%nat
        /\ 0 <= d_score d <= 10
        /\ d_coverage_score d == 2 * len (d_facilities d)
        /\ 0 <= d_accessibility_score d <= 10
        /\ 0 <= d_convenience_score d <= 10).
Proof.
  unfold get_infrastructure_details. split; intros Hc; rewrite Hc; cbn [negb];
    [reflexivity |].
  apply is_category_keys in Hc. eexists. split; [reflexivity |].
  cbn [d_score d_facilities d_coverage_score d_accessibility_score d_convenience_score].
  assert (Ef : get_facilities_for_category searched_for_facilities category
               = top_places (points_of category searched_for_facilities)).
  { unfold get_facilities_for_category, detailed_analysis.
    rewrite collect_eq, map_map. cbn [fst snd].
    rewrite (get_tabulate_In
               (fun c => analyze_category (points_of c searched_for_facilities)) _ _ Hc).
    apply top_places_of_analysis. }
  rewrite Ef.
  set (facilities := top_places (points_of category searched_for_facilities)).
  pose proof (top_places_length (points_of category searched_for_facilities)) as Hlen.
  fold facilities in Hlen.
  assert (Hcov : Qmin (len facilities / 5) 1 * 10 == 2 * len facilities).
  { assert (H5 : len facilities <= 5).
    { unfold len. change 5 with (inject_Z 5). rewrite <- Zle_Qle. lia. }
    assert (E : len facilities / 5 == (1 # 5) * len facilities) by field.
    revert E H5. generalize (len facilities / 5). intros q.
    generalize (len facilities). intros l E H5.
    destruct (Q.min_spec q 1) as [[? M] | [? M]]; revert M;
      generalize (Qmin q 1); intros m M; lra. }
  pose proof (len_nonneg facilities) as Hl0.
  assert (Hl5 : len facilities <= 5).
  { unfold len. change 5 with (inject_Z 5). rewrite <- Zle_Qle. lia. }
  destruct (accessibility_range (map (fun f => Some (distance f)) facilities))
    as [Ha0 Ha10].
  repeat apply conj; try reflexivity; try assumption.
  - unfold calculate_category_score, PyDict.get_default.
    rewrite final_scores_eq.
    rewrite (get_tabulate_In
               (fun c => ca_score (analyze_category (points_of c searched_for_score)))
               _ _ Hc).
    apply final_score_range.
  - unfold calculate_category_score, PyDict.get_default.
    rewrite final_scores_eq.
    rewrite (get_tabulate_In
               (fun c => ca_score (analyze_category (points_of c searched_for_score)))
               _ _ Hc).
    apply final_score_range.
  - rewrite Hcov.
    generalize dependent (Proximity.calculate_accessibility_score
                            (map (fun f => Some (distance f)) facilities)).
    intros a Ha0 Ha10. apply Qle_shift_div_l; lra.
  - rewrite Hcov.
    generalize dependent (Proximity.calculate_accessibility_score
                            (map (fun f => Some (distance f)) facilities)).
    intros a Ha0 Ha10. apply Qle_shift_div_r; lra.
Qed.

Lemma infrastructure_details_bounded_witness :
  exists d,
    get_infrastructure_details six_clinics six_clinics "healthcare" = Ok d
    /\ d_facilities d = top_places (points_of "healthcare" six_clinics)
    /\ (length (d_facilities d) <= 5)%nat
    /\ 0 <= d_score d <= 10
    /\ d_coverage_score d == 2 * len (d_facilities d)
    /\ 0 <= d_accessibility_score d <= 10
    /\ 0 <= d_convenience_score d <= 10.
Proof.
  apply (infrastructure_details_bounded six_clinics six_clinics "healthcare").
  reflexivity.
Defined.

End AnalysisFacts.

Module CacheOpsFacts.
Import Cache CacheOps CacheFacts.
Open Scope Z_scope.

(** *** Keys *)

Lemma str_of_int_inj (a b : Z) : str_of_int a = str_of_int b -> a = b.
Proof.
  unfold str_of_int. intros H.
  assert (Hn : forall z, Z.to_int z <> Decimal.Pos Decimal.Nil
                         /\ Z.to_int z <> Decimal.Neg Decimal.Nil).
  { intros [| p | p]; simpl; split; try discriminate;
      intros [= E]; now apply Unsigned.to_uint_nonnil in E. }
  apply DecimalZ.to_int_inj.
  destruct (Hn a) as [Ha1 Ha2], (Hn b) as [Hb1 Hb2].
  pose proof (NilZero.isi _ Ha1 Ha2) as Ea.
  pose proof (NilZero.isi _ Hb1 Hb2) as Eb.
  rewrite H in Ea. congruence.
Qed.

Lemma length_append (s1 s2 : string) :
  String.length (s1 ++ s2) = (String.length s1 + String.length s2)%nat.
Proof.
  induction s1 as [| c s1 IH]; [reflexivity |].
  rewrite append_cons. simpl. now rewrite IH.
Qed.

Lemma append_inj_r (s1 s2 t : string) : s1 ++ t = s2 ++ t -> s1 = s2.
Proof.
  revert s2. induction s1 as [| c s1 IH]; intros [| c' s2] H.
  - reflexivity.
  - apply (f_equal String.length) in H. rewrite append_nil, length_append in H.
    simpl in H. lia.
  - apply (f_equal String.length) in H. rewrite append_nil, length_append in H.
    simpl in H. lia.
  - rewrite !append_cons in H. injection H as -> H. f_equal. now apply IH.
Qed.

Lemma append_inj_l (s t1 t2 : string) : s ++ t1 = s ++ t2 -> t1 = t2.
Proof.
  induction s as [| c s IH]; [now rewrite !append_nil |].
  rewrite !append_cons. intros [= H]. now apply IH.
Qed.

(** Within a namespace and variant, two municipalities never share a key. *)
Lemma generate_key_separates_ids (key_type additional : string) (a b : Z) :
  _generate_key key_type a additional = _generate_key key_type b additional ->
  a = b.
Proof.
  unfold _generate_key. cbv zeta. intros H. apply str_of_int_inj.
  destruct (negb (additional =? "")%string).
  - apply append_inj_r in H. now do 3 apply append_inj_l in H.
  - now do 3 apply append_inj_l in H.
Qed.

(** *** Degraded mode *)

(** X10: when the cache is disabled or has no client, every operation is a
    no-op: [get] misses, [set] and [delete] return [False],
    [clear_municipality_cache] returns 0, and the service is left as it
    was. *)
Theorem cache_operations_without_redis (self : CacheService) (now : Z)
    (key_type : string) (municipality_id : Z) (data : gmap string json)
    (additional : string) (custom_ttl : option Z) :
  enabled self = false \/ redis_client self = None ->
  get self now key_type municipality_id additional = None
  /\ set self now key_type municipality_id data additional custom_ttl = (self, false)
  /\ delete self now key_type municipality_id additional = (self, false)
  /\ clear_municipality_cache self now municipality_id = (self, 0).
Proof.
  unfold get, set, delete, clear_municipality_cache.
  intros [H | H]; rewrite H; [| destruct (enabled self)]; repeat split.
Qed.

Lemma cache_operations_without_redis_witness :
  get {| enabled := true; redis_client := None |} 5 "area" 3302205 "" = None
  /\ set {| enabled := true; redis_client := None |} 5 "area" 3302205
       (sample_payload 3302205) "" None
     = ({| enabled := true; redis_client := None |}, false)
  /\ delete {| enabled := true; redis_client := None |} 5 "area" 3302205 ""
     = ({| enabled := true; redis_client := None |}, false)
  /\ clear_municipality_cache {| enabled := true; redis_client := None |} 5 3302205
     = ({| enabled := true; redis_client := None |}, 0).
Proof.
  apply (cache_operations_without_redis {| enabled := true; redis_client := None |}).
  right. reflexivity.
Defined.

(** *** [set] *)

Lemma set_connected (db : gmap string entry) (now : Z) (key_type : string)
    (municipality_id : Z) (data : gmap string json) (additional : string)
    (custom_ttl : option Z) :
  0 < ttl_for key_type custom_ttl ->
  set (connected db) now key_type municipality_id data additional custom_ttl
  = (connected
       (<[_generate_key key_type municipality_id additional :=
            {| value := data_with_metadata data now (ttl_for key_type custom_ttl);
               expires_at := now + ttl_for key_type custom_ttl |}]> db),
     true).
Proof.
  intros H. unfold set, connected, redis_setex. cbn [enabled redis_client].
  destruct (ttl_for key_type custom_ttl <=? 0) eqn:E; [lia | reflexivity].
Qed.

Lemma get_connected (db : gmap string entry) (now : Z) (key_type : string)
    (municipality_id : Z) (additional : string) :
  get (connected db) now key_type municipality_id additional
  = redis_get db now (_generate_key key_type municipality_id additional).
Proof. reflexivity. Qed.

Lemma ttl_for_custom (key_type : string) (n : Z) :
  n <> 0 -> ttl_for key_type (Some n) = n.
Proof. intros H. unfold ttl_for. destruct (n =? 0) eqn:E; [lia | reflexivity]. Qed.

(** X11: a positive [custom_ttl] whose expiry instant fits the server's
    64-bit milliseconds replaces the namespace's TTL: the entry is served
    until [custom_ttl] seconds have passed and is a miss afterwards; a
    [custom_ttl] of 0 is taken as no [custom_ttl]; with a negative
    [custom_ttl] the [set] fails, returns [False] and leaves the cache as it
    was. *)
Theorem set_custom_ttl (db : gmap string entry) (now t : Z) (key_type : string)
    (municipality_id : Z) (data : gmap string json) (additional : string)
    (n : Z) :
  (0 < n -> expiry_fits now n = true ->
   let after := set (connected db) now key_type municipality_id data additional
                  (Some n) in
   snd after = true
   /\ (now <= t < now + n ->
       get (fst after) t key_type municipality_id additional
       = Some (data_with_metadata data now n))
   /\ (now + n < t ->
       get (fst after) t key_type municipality_id additional = None))
  /\ set (connected db) now key_type municipality_id data additional (Some 0)
     = set (connected db) now key_type municipality_id data additional None
  /\ (n < 0 ->
      set (connected db) now key_type municipality_id data additional (Some n)
      = (connected db, false)).
Proof.
  split; [| split].
  - intros Hn _ after. unfold after.
    rewrite set_connected by (rewrite ttl_for_custom; lia).
    rewrite ttl_for_custom by lia. cbn [fst snd].
    rewrite get_connected. unfold redis_get. rewrite lookup_insert_eq.
    unfold live. cbn [expires_at value]. repeat split.
    + intros Ht. destruct (t <=? now + n) eqn:E; [reflexivity | lia].
    + intros Ht. destruct (t <=? now + n) eqn:E; [lia | reflexivity].
  - reflexivity.
  - intros Hn. unfold set, connected, redis_setex. cbn [enabled redis_client].
    rewrite ttl_for_custom by lia.
    destruct (n <=? 0) eqn:E; [reflexivity | lia].
Qed.

Lemma set_custom_ttl_witness :
  get (fst (set (connected sample_db) 100 "population" 3550308
              (sample_payload 3550308) "" (Some 60)))
      161 "population" 3550308 "" = None.
Proof.
  apply (set_custom_ttl sample_db 100 161 "population" 3550308
           (sample_payload 3550308) "" 60); reflexivity.
Defined.

(** X12: the last writer wins: after two [set]s of the same namespace,
    municipality and variant, a [get] within the TTL of the second returns the
    second payload, stamped with the instant and TTL of the second [set],
    even where the first entry would have expired. *)
Theorem set_overwrites (db : gmap string entry) (t1 t2 t : Z) (key_type : string)
    (municipality_id : Z) (first second : gmap string json) (additional : string) :
  let ttl := ttl_for key_type None in
  let once := fst (set (connected db) t1 key_type municipality_id first additional None) in
  let twice := fst (set once t2 key_type municipality_id second additional None) in
  t2 <= t < t2 + ttl ->
  get twice t key_type municipality_id additional
  = Some (data_with_metadata second t2 ttl).
Proof.
  intros ttl once twice Ht. unfold twice, once.
  pose proof (default_ttl_pos key_type) as Hpos.
  rewrite set_connected by assumption. cbn [fst].
  rewrite set_connected by assumption. cbn [fst].
  rewrite get_connected. unfold redis_get. rewrite lookup_insert_eq.
  unfold live. cbn [expires_at value]. fold ttl.
  destruct (t <=? t2 + ttl) eqn:E; [reflexivity | lia].
Qed.

Lemma set_overwrites_witness :
  get (fst (set (fst (set (connected sample_db) 0 "municipality_info" 330
                        (sample_payload 1) "" None))
              90000 "municipality_info" 330 (sample_payload 2) "" None))
      100000 "municipality_info" 330 ""
  = Some (data_with_metadata (sample_payload 2) 90000
            (ttl_for "municipality_info" None)).
Proof.
  apply (set_overwrites sample_db 0 90000 100000 "municipality_info" 330
           (sample_payload 1) (sample_payload 2) "").
  vm_compute. split; [discriminate | reflexivity].
Defined.

(** X13: a [set] for one municipality leaves what [get] returns for any
    other municipality unchanged, in the same namespace and variant and at
    any instant. *)
Theorem set_leaves_other_municipalities (self : CacheService) (now t : Z)
    (key_type : string) (a b : Z) (data : gmap string json) (additional : string)
    (custom_ttl : option Z) :
  a <> b ->
  get (fst (set self now key_type a data additional custom_ttl)) t
    key_type b additional
  = get self t key_type b additional.
Proof.
  intros Hab. unfold set.
  destruct (enabled self) eqn:He; [| reflexivity].
  destruct (redis_client self) as [db |] eqn:Hc; [| reflexivity].
  unfold redis_setex. destruct (ttl_for key_type custom_ttl <=? 0); [reflexivity |].
  cbn [fst]. unfold get. cbn [enabled redis_client]. rewrite He, Hc.
  unfold redis_get. rewrite lookup_insert_ne; [reflexivity |].
  intros H. now apply generate_key_separates_ids in H.
Qed.

Lemma set_leaves_other_municipalities_witness :
  get (fst (set (connected sample_db) 7 "population" 3302205
              (sample_payload 0) "" None)) 8 "population" 3550308 ""
  = get (connected sample_db) 8 "population" 3550308 "".
Proof.
  apply (set_leaves_other_municipalities (connected sample_db) 7 8 "population"
           3302205 3550308 (sample_payload 0) "" None).
  discriminate.
Defined.

(** *** [delete] *)

(** X14: on a connected cache, [delete] returns [True] exactly when the entry
    was there and not expired; afterwards a [get] of the same namespace,
    municipality and variant is a miss, and what [get] returns for any other
    municipality is unchanged. *)
Theorem delete_removes_one_entry (db : gmap string entry) (now t : Z)
    (key_type : string) (a b : Z) (additional : string) :
  let after := delete (connected db) now key_type a additional in
  (snd after = true <->
   get (connected db) now key_type a additional <> None)
  /\ get (fst after) t key_type a additional = None
  /\ (a <> b ->
      get (fst after) t key_type b additional
      = get (connected db) t key_type b additional).
Proof.
  intros after. unfold after, delete, connected. cbn [enabled redis_client].
  cbn [redis_del fst snd]. unfold get. cbn [enabled redis_client].
  repeat split.
  - destruct (redis_get db now (_generate_key key_type a additional));
      [discriminate | intros H; discriminate H].
  - destruct (redis_get db now (_generate_key key_type a additional));
      [reflexivity | intros H; now contradiction H].
  - unfold redis_get. now rewrite lookup_delete_eq.
  - intros Hab. unfold redis_get. rewrite lookup_delete_ne; [reflexivity |].
    intros H. now apply generate_key_separates_ids in H.
Qed.

Lemma delete_removes_one_entry_witness :
  get (fst (delete (connected sample_db) 3 "population" 3302205 "")) 4
    "population" 3550308 ""
  = get (connected sample_db) 4 "population" 3550308 "".
Proof.
  apply (delete_removes_one_entry sample_db 3 4 "population" 3302205 3550308 "").
  discriminate.
Defined.

(** *** [clear_municipality_cache], completed *)

(** X15: on a connected cache, [clear_municipality_cache] returns the number
    of live keys that match its pattern, and afterwards no entry of the
    municipality is left, in any namespace and for any variant. *)
Theorem clear_municipality_cache_clears_all_variants (db : gmap string entry)
    (now : Z) (municipality_id : Z) :
  snd (clear_municipality_cache (connected db) now municipality_id)
  = Z.of_nat (length (redis_keys db now
                        ("ibge:*:" ++ str_of_int municipality_id ++ "*")))
  /\ forall key_type additional,
       get (fst (clear_municipality_cache (connected db) now municipality_id))
         now key_type municipality_id additional = None.
Proof.
  split; [apply clear_municipality_cache_count |].
  intros key_type additional. apply clear_municipality_cache_removes_own.
Qed.

Lemma glob_star_inv (p s : string) :
  glob_match (String "*" p) s = true ->
  exists s1 s2, s = s1 ++ s2 /\ glob_match p s2 = true.
Proof.
  induction s as [| c s IH]; rewrite glob_star_unfold; intros H;
    apply orb_true_iff in H as [H | H]; try discriminate.
  - now exists "", "".
  - now exists "", (String c s).
  - destruct (IH H) as (s1 & s2 & -> & Hm). now exists (String c s1), s2.
Qed.

Lemma glob_literal_inv (lit p s : string) :
  star_free lit = true ->
  glob_match (lit ++ p) s = true ->
  exists s', s = lit ++ s' /\ glob_match p s' = true.
Proof.
  revert s. induction lit as [| c lit IH]; intros s Hf H.
  - now exists s.
  - rewrite append_cons in H. simpl in Hf.
    apply andb_true_iff in Hf as [Hc Hl]. apply negb_true_iff in Hc.
    simpl in H. rewrite Hc in H. destruct s as [| c' s]; [discriminate |].
    apply andb_true_iff in H as [E H]. apply Ascii.eqb_eq in E. subst c'.
    destruct (IH s Hl H) as (s' & -> & Hm). now exists s'.
Qed.

Lemma colon_free_uint (d : Decimal.uint) :
  colon_free (NilEmpty.string_of_uint d) = true.
Proof. induction d; simpl; auto. Qed.

Lemma colon_free_str_of_int (n : Z) : colon_free (str_of_int n) = true.
Proof.
  unfold str_of_int, NilZero.string_of_int.
  destruct (Z.to_int n) as [d | d]; simpl;
    destruct d; simpl; auto using colon_free_uint.
Qed.

Lemma colon_free_append_colon (x y : string) :
  colon_free (x ++ String ":" y) = false.
Proof.
  induction x as [| c x IH]; [reflexivity |].
  rewrite append_cons. simpl. rewrite IH. apply andb_false_r.
Qed.

Lemma split_at_colon (kt o s1 t : string) :
  colon_free kt = true -> colon_free o = true ->
  kt ++ String ":" o = s1 ++ String ":" t -> o = t.
Proof.
  revert s1. induction kt as [| c kt IH]; intros [| c' s1] Hk Ho H.
  - rewrite !append_nil in H. now injection H.
  - rewrite append_nil, append_cons in H. injection H as _ H.
    rewrite H, colon_free_append_colon in Ho. discriminate.
  - rewrite append_nil, append_cons in H. injection H as -> _.
    simpl in Hk. discriminate.
  - rewrite !append_cons in H. injection H as _ H.
    simpl in Hk. apply andb_true_iff in Hk as [_ Hk]. now apply (IH s1).
Qed.

(** A plain key, of a namespace without [":"] and with no variant, matches
    the pattern only if the identifier's decimal writing extends that of the
    municipality cleared. *)
Lemma plain_key_match_extends (municipality_id other : Z) (key_type : string) :
  colon_free key_type = true ->
  glob_match ("ibge:*:" ++ str_of_int municipality_id ++ "*")
    (_generate_key key_type other "") = true ->
  exists digits, str_of_int other = str_of_int municipality_id ++ digits.
Proof.
  intros Hk H. unfold _generate_key in H. cbn [String.eqb negb] in H.
  change ("ibge:*:" ++ str_of_int municipality_id ++ "*")
    with ("ibge:" ++ String "*" ((":" ++ str_of_int municipality_id) ++ "*")) in H.
  apply glob_literal_inv in H as (s' & E & H); [| reflexivity].
  apply append_inj_l in E. subst s'.
  apply glob_star_inv in H as (s1 & s2 & E & H).
  apply glob_literal_inv in H as (digits & -> & _).
  - exists digits.
    change ((":" ++ str_of_int municipality_id) ++ digits)
      with (String ":" (str_of_int municipality_id ++ digits)) in E.
    change (":" ++ str_of_int other) with (String ":" (str_of_int other)) in E.
    apply split_at_colon in E; auto using colon_free_str_of_int.
  - change (star_free (str_of_int municipality_id) = true).
    apply star_free_str_of_int.
Qed.

(** X16: clearing a municipality leaves untouched the plain entries (any
    namespace without [":"], no variant) of every other municipality whose
    identifier has no more digits than the one cleared; in particular a
    seven-digit code never disturbs another seven-digit code. *)
Theorem clear_municipality_cache_spares_shorter_ids (db : gmap string entry)
    (now t : Z) (municipality_id other : Z) (key_type : string) :
  colon_free key_type = true ->
  municipality_id <> other ->
  (String.length (str_of_int other) <= String.length (str_of_int municipality_id))%nat ->
  get (fst (clear_municipality_cache (connected db) now municipality_id)) t
    key_type other ""
  = get (connected db) t key_type other "".
Proof.
  intros Hk Hne Hlen.
  destruct (clear_municipality_cache_effect db now municipality_id)
    as (db' & -> & _ & Hkeep).
  rewrite !get_connected. unfold redis_get. rewrite Hkeep; [reflexivity |].
  apply not_true_is_false. intros H.
  apply plain_key_match_extends in H as (digits & E); [| assumption].
  apply Hne. apply str_of_int_inj. rewrite E in Hlen |- *.
  rewrite length_append in Hlen.
  destruct digits; [now rewrite append_nil_r | simpl in Hlen; lia].
Qed.

Lemma clear_municipality_cache_spares_shorter_ids_witness :
  get (fst (clear_municipality_cache (connected sample_db) 0 3302205)) 0
    "population" 3550308 ""
  = get (connected sample_db) 0 "population" 3550308 "".
Proof.
  apply (clear_municipality_cache_spares_shorter_ids sample_db 0 0 3302205 3550308
           "population"); [reflexivity | discriminate |].
  vm_compute. lia.
Defined.

End CacheOpsFacts.

Module PlacesFacts.
Import Gateway Places.

Lemma make_request_with_key (self : GooglePlacesService) (net : transport) :
  no_api_key self = false ->
  _make_request self net
  = match net with
    | Response status result =>
        if negb (status =? 200)%Z then RaisesHTTPException status
        else Returns result
    | ClientError _ => RaisesHTTPException 500
    | OtherError message => RaisesOther message
    end.
Proof. intros H. unfold _make_request. now rewrite H. Qed.

(** X17: with an API key, when the provider answers 200 with status ["OK"],
    [get_nearby_places] returns the provider's [results] as they are (the
    empty list if the answer has none) and [geocode_address] returns the first
    of them, or [None] when the list is empty or missing. *)
Theorem adapters_return_provider_results (self : GooglePlacesService)
    (result : list (string * json)) (address : string) (latitude longitude : Q)
    (place_type keyword : option string) (radius : Z) :
  no_api_key self = false ->
  status_is_OK result = true ->
  get_nearby_places self (Response 200 result) latitude longitude place_type
    radius keyword
  = Returns (PyDict.get_default result "results" (JList []))
  /\ (forall x rest,
        PyDict.get result "results" = Some (JList (x :: rest)) ->
        geocode_address self (Response 200 result) address = Returns x)
  /\ (PyDict.get result "results" = Some (JList [])
      \/ PyDict.get result "results" = None ->
      geocode_address self (Response 200 result) address = Returns JNull).
Proof.
  intros Hk Hs. unfold get_nearby_places, geocode_address.
  rewrite Hk, (make_request_with_key _ _ Hk). cbn [Z.eqb Pos.eqb negb]. rewrite Hs.
  split; [reflexivity |]. split.
  - intros x rest ->. reflexivity.
  - intros [-> | ->]; reflexivity.
Qed.

Lemma adapters_return_provider_results_witness :
  get_nearby_places {| api_key := Some "k3y" |}
    (Response 200 [("status", JStr "OK");
                   ("results", JList [JDict [("name", JStr "Farmácia Central")]])])
    0 0 (Some "pharmacy") 500 None
  = Returns (JList [JDict [("name", JStr "Farmácia Central")]]).
Proof.
  apply (adapters_return_provider_results {| api_key := Some "k3y" |}
           [("status", JStr "OK");
            ("results", JList [JDict [("name", JStr "Farmácia Central")]])]
           "" 0%Q 0%Q (Some "pharmacy") None 500%Z); reflexivity.
Defined.

(** X18: [get_nearby_places] and [search_places] never let an [HTTPException]
    out, and they raise exactly when an API key is configured and the
    session raises something other than [aiohttp.ClientError], which they pass
    on; [geocode_address] passes such an exception on as well. *)
Theorem adapters_raise_only_foreign_exceptions (self : GooglePlacesService)
    (net : transport) (query address : string) (latitude longitude : Q)
    (place_type keyword : option string) (radius : Z) (message : string) :
  (get_nearby_places self net latitude longitude place_type radius keyword
   = RaisesOther message
   <-> no_api_key self = false /\ net = OtherError message)
  /\ (search_places self net query = RaisesOther message
      <-> no_api_key self = false /\ net = OtherError message)
  /\ (forall status_code,
        get_nearby_places self net latitude longitude place_type radius keyword
        <> RaisesHTTPException status_code
        /\ search_places self net query <> RaisesHTTPException status_code
        /\ geocode_address self net address <> RaisesHTTPException status_code)
  /\ (no_api_key self = false -> net = OtherError message ->
      geocode_address self net address = RaisesOther message).
Proof.
  unfold get_nearby_places, search_places, geocode_address, first_result,
    _make_request.
  destruct (no_api_key self) eqn:Hk; destruct net as [status result | m | m];
    repeat match goal with
           | |- context [match ?x with _ => _ end] =>
               lazymatch x with
               | context [match _ with _ => _ end] => fail
               | _ => destruct x eqn:?
               end
           end;
    repeat split; intros; subst;
    try discriminate; try congruence;
    try (match goal with H : _ /\ _ |- _ => destruct H end;
         try discriminate; congruence).
Qed.

Lemma adapters_raise_only_foreign_exceptions_witness :
  geocode_address {| api_key := Some "k3y" |} (OtherError "TimeoutError") "Rua A"
  = RaisesOther "TimeoutError".
Proof.
  apply (adapters_raise_only_foreign_exceptions {| api_key := Some "k3y" |}
           (OtherError "TimeoutError") "" "Rua A" 0%Q 0%Q None None 0%Z
           "TimeoutError"); reflexivity.
Defined.

(** X19: with an API key, [search_places] treats the provider's answer exactly
    as [get_nearby_places] does; without one it returns three mock results,
    each named after the query and typed ["establishment"] only. *)
Theorem search_places_outcomes (self : GooglePlacesService) (net : transport)
    (query : string) (latitude longitude : Q) (place_type keyword : option string)
    (radius : Z) :
  (no_api_key self = false ->
   search_places self net query
   = get_nearby_places self net latitude longitude place_type radius keyword)
  /\ (no_api_key self = true ->
      exists r1 r2 r3,
        search_places self net query = Returns (JList [JDict r1; JDict r2; JDict r3])
        /\ map (fun r => PyDict.get r "name") [r1; r2; r3]
           = [ Some (JStr ("Mock result 1 for '" ++ query ++ "'"));
               Some (JStr ("Mock result 2 for '" ++ query ++ "'"));
               Some (JStr ("Mock result 3 for '" ++ query ++ "'")) ]
        /\ forall r, In r [r1; r2; r3] ->
                     PyDict.get r "types" = Some (JList [JStr "establishment"])).
Proof.
  unfold search_places, get_nearby_places. split; intros Hk; rewrite Hk.
  - reflexivity.
  - do 3 eexists. split; [reflexivity |]. split; [reflexivity |].
    intros r [<- | [<- | [<- | []]]]; reflexivity.
Qed.

Lemma search_places_outcomes_witness :
  search_places {| api_key := Some "k3y" |} (ClientError "reset") "padaria"
  = get_nearby_places {| api_key := Some "k3y" |} (ClientError "reset")
      0 0 None 1000 None.
Proof.
  apply (search_places_outcomes {| api_key := Some "k3y" |} (ClientError "reset")
           "padaria" 0%Q 0%Q None None 1000%Z).
  reflexivity.
Defined.

(** *** [extract_address_components] *)

Lemma keys_assign (k : string) (v : json) (components : list (string * json)) :
  PyDict.keys (assign k v components) = PyDict.keys components.
Proof.
  unfold PyDict.keys, assign. rewrite map_map. apply map_ext.
  intros [k' v']. cbn [fst]. now destruct (String.eqb k' k).
Qed.

Lemma keys_assign_first (types : list json) (long_name : json)
    (components r : list (string * json)) :
  assign_first types long_name components = Some r ->
  PyDict.keys r = PyDict.keys components.
Proof.
  induction types as [| t types IH]; simpl; [now intros [= <-] |].
  destruct t; try exact IH; try discriminate.
  destruct (has_key components s); [| exact IH].
  intros [= <-]. apply keys_assign.
Qed.

Lemma keys_update_all (address_components : list json)
    (components r : list (string * json)) :
  update_all address_components components = Some r ->
  PyDict.keys r = PyDict.keys components.
Proof.
  revert components. induction address_components as [| c l IH];
    intros components; simpl; [now intros [= <-] |].
  destruct (update_with c components) as [components' |] eqn:E; [| discriminate].
  intros H. rewrite (IH _ H). unfold update_with in E.
  destruct c; try discriminate.
  destruct (type_candidates _); [| discriminate].
  now apply keys_assign_first in E.
Qed.

Lemma assign_first_strings (types : list json) (long_name : json)
    (components : list (string * json)) :
  forallb is_string types = true ->
  exists r, assign_first types long_name components = Some r.
Proof.
  induction types as [| t types IH]; simpl; [eauto |].
  intros H. apply andb_true_iff in H as [Ht Hts].
  destruct t; try discriminate.
  destruct (has_key components s); eauto.
Qed.

Lemma update_all_well_formed (address_components : list json)
    (components : list (string * json)) :
  forallb well_formed_component address_components = true ->
  exists r, update_all address_components components = Some r.
Proof.
  revert components. induction address_components as [| c l IH];
    intros components; simpl; [eauto |].
  intros H. apply andb_true_iff in H as [Hc Hl].
  assert (E : exists components', update_with c components = Some components').
  { unfold update_with, well_formed_component, PyDict.get_default in *.
    destruct c; try discriminate.
    destruct (PyDict.get d "types") as [types |]; cbn [type_candidates].
    - destruct types; try discriminate. cbn [type_candidates].
      now apply assign_first_strings.
    - simpl. eauto. }
  destruct E as [components' ->]. now apply IH.
Qed.

(** X20: whenever [extract_address_components] returns, its result has
    exactly the eight standard keys, in their order; it returns for all
    well-formed place data (address components that are dictionaries whose
    types are strings), and with every value empty when the place has no
    address components. *)
Theorem extract_address_components_keys (place_data : list (string * json)) :
  (forall components,
     extract_address_components place_data = Some components ->
     PyDict.keys components
     = ["street_number"; "route"; "sublocality"; "locality";
        "administrative_area_level_1"; "administrative_area_level_2";
        "country"; "postal_code"])
  /\ (well_formed place_data = true ->
      exists components, extract_address_components place_data = Some components)
  /\ (PyDict.get place_data "address_components" = None ->
      extract_address_components place_data = Some empty_components).
Proof.
  unfold extract_address_components, well_formed, PyDict.get_default.
  split; [| split].
  - intros components.
    destruct (PyDict.get place_data "address_components") as [v |].
    + destruct v as [| | | | [| c s] | l | [| kv d]]; try discriminate;
        try (intros [= <-]; reflexivity).
      intros H. now apply keys_update_all in H.
    + intros [= <-]. reflexivity.
  - destruct (PyDict.get place_data "address_components") as [v |].
    + destruct v; try discriminate. apply update_all_well_formed.
    + intros _. simpl. eauto.
  - intros ->. reflexivity.
Qed.

Lemma extract_address_components_keys_witness :
  exists components,
    extract_address_components
      [ ("address_components",
          JList [ JDict [ ("long_name", JStr "Itaperuna");
                          ("types", JList [JStr "locality"; JStr "political"]) ] ]) ]
    = Some components.
Proof.
  apply (extract_address_components_keys
           [ ("address_components",
               JList [ JDict [ ("long_name", JStr "Itaperuna");
                               ("types", JList [JStr "locality"; JStr "political"]) ] ]) ]).
  reflexivity.
Defined.

Lemma get_assign (k k' : string) (v : json) (components : list (string * json)) :
  PyDict.get (assign k v components) k'
  = if String.eqb k' k
    then option_map (fun _ => v) (PyDict.get components k')
    else PyDict.get components k'.
Proof.
  induction components as [| [k0 v0] components IH].
  - simpl. now destruct (String.eqb k' k).
  - cbn [assign map fst snd]. fold (assign k v components).
    destruct (String.eqb k0 k) eqn:E1; cbn [PyDict.get fst];
      destruct (String.eqb k0 k') eqn:E2; try exact IH.
    + apply String.eqb_eq in E1, E2. subst. now rewrite String.eqb_refl.
    + apply String.eqb_eq in E2. subst.
      now rewrite E1.
Qed.

(** X25: an address component changes at most one entry: either none of its
    types is a standard key and the components are left as they are, or the
    first of its types that is a standard key receives the component's long
    name and every other entry keeps its value, whatever types follow. *)
Theorem address_component_sets_first_known_type (types : list json)
    (long_name : json) (components r : list (string * json)) :
  assign_first types long_name components = Some r ->
  (r = components
   /\ forall t, In (JStr t) types -> has_key components t = false)
  \/ exists before t after,
       types = (before ++ JStr t :: after)%list
       /\ has_key components t = true
       /\ (forall t', In (JStr t') before -> has_key components t' = false)
       /\ PyDict.get r t = Some long_name
       /\ forall k, k <> t -> PyDict.get r k = PyDict.get components k.
Proof.
  induction types as [| x types IH]; cbn [assign_first].
  - intros [= <-]. left. split; [reflexivity | intros t []].
  - assert (Hskip : (forall t, x <> JStr t) ->
              assign_first types long_name components = Some r ->
              (r = components
               /\ forall t, In (JStr t) (x :: types) -> has_key components t = false)
              \/ exists before t after,
                   x :: types = (before ++ JStr t :: after)%list
                   /\ has_key components t = true
                   /\ (forall t', In (JStr t') before -> has_key components t' = false)
                   /\ PyDict.get r t = Some long_name
                   /\ forall k, k <> t -> PyDict.get r k = PyDict.get components k).
    { intros Hx H. destruct (IH H) as [[-> Hn] | (b & t & a & -> & Hk & Hb & Hg & Ho)].
      - left. split; [reflexivity |]. intros t [E | Hin]; [| now apply Hn].
        now contradiction (Hx t).
      - right. exists (x :: b), t, a. repeat split; try assumption.
        intros t' [E | Hin]; [now contradiction (Hx t') | now apply Hb]. }
    destruct x as [| b | n | q | t | l | d]; try discriminate;
      try (apply Hskip; discriminate).
    destruct (has_key components t) eqn:Hk.
    + intros [= <-]. right. exists [], t, types. repeat split.
      * exact Hk.
      * intros t' [].
      * rewrite get_assign, String.eqb_refl. unfold has_key in Hk.
        now destruct (PyDict.get components t).
      * intros k Hne. rewrite get_assign.
        destruct (String.eqb_spec k t); [contradiction | reflexivity].
    + intros H. destruct (IH H) as [[-> Hn] | (b & t0 & a & -> & Hk0 & Hb & Hg & Ho)].
      * left. split; [reflexivity |]. intros t' [[= <-] | Hin]; [exact Hk | now apply Hn].
      * right. exists (JStr t :: b), t0, a. repeat split; try assumption.
        intros t' [[= <-] | Hin]; [exact Hk | now apply Hb].
Qed.

Lemma address_component_sets_first_known_type_witness :
  (assign "locality" (JStr "Itaperuna") empty_components = empty_components
   /\ forall t, In (JStr t) [JStr "political"; JStr "locality"; JStr "country"] ->
                has_key empty_components t = false)
  \/ exists before t after,
       [JStr "political"; JStr "locality"; JStr "country"]
       = (before ++ JStr t :: after)%list
       /\ has_key empty_components t = true
       /\ (forall t', In (JStr t') before -> has_key empty_components t' = false)
       /\ PyDict.get (assign "locality" (JStr "Itaperuna") empty_components) t
          = Some (JStr "Itaperuna")
       /\ forall k, k <> t ->
            PyDict.get (assign "locality" (JStr "Itaperuna") empty_components) k
            = PyDict.get empty_components k.
Proof.
  apply (address_component_sets_first_known_type
           [JStr "political"; JStr "locality"; JStr "country"] (JStr "Itaperuna")
           empty_components).
  reflexivity.
Defined.

End PlacesFacts.

Module IbgeFetchFacts.
Import Cache IbgeFetch Analysis.
Open Scope Z_scope.

Lemma data_with_metadata_nonempty (data : gmap string json) (now ttl : Z) :
  nonempty (data_with_metadata data now ttl) = true.
Proof.
  unfold nonempty, data_with_metadata.
  destruct (size _) eqn:E; [| reflexivity].
  apply map_size_empty_iff in E.
  apply (f_equal (fun m => m !! "_cache_ttl")) in E.
  rewrite lookup_insert_eq, lookup_empty in E. discriminate.
Qed.

(** X21: a fetcher that finds a non-empty entry in the cache returns it as it
    is, whatever the network would have answered, and leaves the cache
    unchanged; on a miss, an answer without data or a failed request gives
    [None] and leaves the cache unchanged too. *)
Theorem fetch_hit_or_failure (key_type : string) (cache : CacheService) (now : Z)
    (municipality_id : Z) (outcome : fetched) (d : gmap string json) :
  (get cache now key_type municipality_id "" = Some d -> nonempty d = true ->
   fetch key_type {| cache_enabled := true |} cache now municipality_id outcome
   = (cache, Some d))
  /\ (get cache now key_type municipality_id "" = None ->
      (forall result, outcome <> Parsed result) ->
      fetch key_type {| cache_enabled := true |} cache now municipality_id outcome
      = (cache, None)).
Proof.
  unfold fetch. cbn [cache_enabled]. split.
  - intros -> ->. reflexivity.
  - intros -> H. destruct outcome as [result | | e]; try reflexivity.
    now contradiction (H result).
Qed.

Lemma fetch_hit_or_failure_witness :
  fetch "population" {| cache_enabled := true |} (connected sample_db) 5 3550308
    (Failed "timeout")
  = (connected sample_db, Some (sample_payload 3550308)).
Proof.
  apply (fetch_hit_or_failure "population" (connected sample_db) 5 3550308
           (Failed "timeout") (sample_payload 3550308)); reflexivity.
Defined.

(** X22: on a connected cache, a fetcher that misses and obtains a result
    returns it and writes it through: until the namespace's TTL has elapsed,
    every later call for the same municipality returns the stored result,
    extended with [_cached_at] and [_cache_ttl], whatever its own request
    would have given, even a failure. *)
Theorem fetch_writes_through (key_type : string) (db : gmap string entry)
    (now t : Z) (municipality_id : Z) (result : gmap string json)
    (later : fetched) :
  let ttl := ttl_for key_type None in
  let first :=
    fetch key_type {| cache_enabled := true |} (connected db) now
      municipality_id (Parsed result) in
  get (connected db) now key_type municipality_id "" = None ->
  now <= t < now + ttl ->
  snd first = Some result
  /\ fetch key_type {| cache_enabled := true |} (fst first) t municipality_id later
     = (fst first, Some (data_with_metadata result now ttl)).
Proof.
  intros ttl first Hmiss Ht.
  assert (E : first
    = (connected (<[_generate_key key_type municipality_id "" :=
                      {| value := data_with_metadata result now ttl;
                         expires_at := now + ttl |}]> db), Some result)).
  { unfold first, fetch. cbn [cache_enabled]. rewrite Hmiss.
    rewrite CacheOpsFacts.set_connected by apply CacheFacts.default_ttl_pos.
    reflexivity. }
  rewrite E. cbn [fst snd]. split; [reflexivity |].
  unfold fetch. cbn [cache_enabled].
  rewrite CacheOpsFacts.get_connected. unfold redis_get.
  rewrite lookup_insert_eq. unfold live. cbn [expires_at value].
  destruct (t <=? now + ttl) eqn:El; [| lia].
  now rewrite data_with_metadata_nonempty.
Qed.

Lemma fetch_writes_through_witness :
  fetch "area" {| cache_enabled := true |}
    (fst (fetch "area" {| cache_enabled := true |} (connected ∅) 0 3302205
            (Parsed (sample_payload 3302205))))
    1000 3302205 (Failed "HTTP 503")
  = (fst (fetch "area" {| cache_enabled := true |} (connected ∅) 0 3302205
            (Parsed (sample_payload 3302205))),
     Some (data_with_metadata (sample_payload 3302205) 0 (ttl_for "area" None))).
Proof.
  apply (fetch_writes_through "area" ∅ 0 1000 3302205 (sample_payload 3302205)
           (Failed "HTTP 503")).
  - reflexivity.
  - vm_compute. split; [discriminate | reflexivity].
Defined.

(** X23: the municipality endpoint never answers 404: it answers 500 whenever
    the basic information is missing or empty, even when population, area and
    density were obtained, and with [include_indicators] it otherwise returns
    the complete record. *)
Theorem municipality_endpoint_never_404 (municipality_id : Z)
    (include_indicators : bool)
    (basic_info population area density economic_indicators : Ibge.gathered) :
  get_municipality_data municipality_id include_indicators basic_info population
    area density economic_indicators <> HTTPException 404
  /\ (truthy (Ibge.value_or JNull basic_info) = false ->
      get_municipality_data municipality_id include_indicators basic_info
        population area density economic_indicators = HTTPException 500)
  /\ (truthy (Ibge.value_or JNull basic_info) = true ->
      get_municipality_data municipality_id true basic_info population area
        density economic_indicators
      = Ok (Ibge.get_complete_municipality_data municipality_id basic_info
              population area density economic_indicators)).
Proof.
  unfold get_municipality_data. split; [| split].
  - destruct include_indicators.
    + cbn [PyDict.get_default PyDict.get Ibge.get_complete_municipality_data
             String.eqb Ascii.eqb Bool.eqb].
      destruct (truthy _); discriminate.
    + destruct basic_info, population, area; try discriminate.
      cbn [PyDict.get_default PyDict.get String.eqb Ascii.eqb Bool.eqb].
      destruct (truthy _); discriminate.
  - intros H. destruct include_indicators.
    + cbn [PyDict.get_default PyDict.get Ibge.get_complete_municipality_data
             String.eqb Ascii.eqb Bool.eqb]. now rewrite H.
    + destruct basic_info as [b | e]; [| reflexivity].
      destruct population, area; try reflexivity.
      cbn [PyDict.get_default PyDict.get String.eqb Ascii.eqb Bool.eqb].
      cbn [Ibge.value_or] in H. now rewrite H.
  - intros H.
    cbn [PyDict.get_default PyDict.get Ibge.get_complete_municipality_data
           String.eqb Ascii.eqb Bool.eqb]. now rewrite H.
Qed.

Lemma municipality_endpoint_never_404_witness :
  get_municipality_data 9999999 true (Ibge.Value JNull)
    (Ibge.Value (JDict [("population", JInt 100)])) (Ibge.Value JNull)
    (Ibge.Value JNull) (Ibge.Value (JDict []))
  = HTTPException 500.
Proof.
  apply (municipality_endpoint_never_404 9999999 true (Ibge.Value JNull)
           (Ibge.Value (JDict [("population", JInt 100)])) (Ibge.Value JNull)
           (Ibge.Value JNull) (Ibge.Value (JDict []))).
  reflexivity.
Defined.

End IbgeFetchFacts.

Module IbgeSearchFacts.
Import IbgeSearch.

Section Search.
Variables lower upper : string -> string.

Lemma filter_municipalities_sound (name : string) (uf : option string)
    (municipalities filtered : list json) (entry : json) :
  filter_municipalities lower upper name uf municipalities = Some filtered ->
  In entry filtered ->
  exists municipality nome,
    In (JDict municipality) municipalities
    /\ summary municipality = Some entry
    /\ PyDict.get_default municipality "nome" (JStr "") = JStr nome
    /\ contains (lower name) (lower nome) = true
    /\ uf_matches upper municipality uf = Some true.
Proof.
  revert filtered. induction municipalities as [| m rest IH]; intros filtered;
    cbn [filter_municipalities].
  - intros [= <-] [].
  - destruct m as [| | | | | | municipality]; try discriminate.
    destruct (PyDict.get_default municipality "nome" (JStr "")) as [| | | | nome | |]
      eqn:En; try discriminate.
    assert (Hrest : forall l,
              filter_municipalities lower upper name uf rest = Some l ->
              In entry l ->
              exists municipality0 nome0,
                In (JDict municipality0) (JDict municipality :: rest)
                /\ summary municipality0 = Some entry
                /\ PyDict.get_default municipality0 "nome" (JStr "") = JStr nome0
                /\ contains (lower name) (lower nome0) = true
                /\ uf_matches upper municipality0 uf = Some true).
    { intros l Hl Hin. destruct (IH l Hl Hin) as (m0 & n0 & H0 & H).
      exists m0, n0. split; [now right | exact H]. }
    destruct (contains (lower name) (lower nome)) eqn:Ec; [| apply Hrest].
    destruct (uf_matches upper municipality uf) as [[|] |] eqn:Eu;
      [| apply Hrest | discriminate].
    destruct (summary municipality) as [s |] eqn:Es; [| discriminate].
    destruct (filter_municipalities lower upper name uf rest) as [l |] eqn:El;
      [| discriminate].
    intros [= <-] [<- | Hin].
    + exists municipality, nome. repeat split; try assumption. now left.
    + now apply (Hrest l).
Qed.

Lemma filter_municipalities_malformed (name : string) (uf : option string)
    (municipalities : list json) (x : json) :
  In x municipalities ->
  (forall municipality, x <> JDict municipality) ->
  filter_municipalities lower upper name uf municipalities = None.
Proof.
  intros Hin Hx. induction municipalities as [| m rest IH]; [destruct Hin |].
  cbn [filter_municipalities]. destruct Hin as [-> | Hin].
  - destruct x; try reflexivity. now contradiction (Hx d).
  - specialize (IH Hin). rewrite IH.
    destruct m as [| | | | | | municipality]; try reflexivity.
    destruct (PyDict.get_default municipality "nome" (JStr "")); try reflexivity.
    destruct (contains _ _); [| reflexivity].
    destruct (uf_matches upper municipality uf) as [[|] |]; try reflexivity.
    now destruct (summary municipality).
Qed.

(** X24: [search_municipalities] returns at most ten entries; each is the
    summary of a municipality of the provider's answer whose lower-cased name
    contains the lower-cased query and, when a state is given, whose state
    matches; and one element of the answer that is not a dictionary makes the
    whole search return the empty list. *)
Theorem search_municipalities_sound (name : string) (uf : option string)
    (answer : option json) :
  (length (search_municipalities lower upper name uf answer) <= 10)%nat
  /\ (forall entry,
        In entry (search_municipalities lower upper name uf answer) ->
        exists municipalities municipality nome,
          answer = Some (JList municipalities)
          /\ In (JDict municipality) municipalities
          /\ summary municipality = Some entry
          /\ PyDict.get_default municipality "nome" (JStr "") = JStr nome
          /\ contains (lower name) (lower nome) = true
          /\ uf_matches upper municipality uf = Some true)
  /\ (forall municipalities x,
        answer = Some (JList municipalities) ->
        In x municipalities ->
        (forall municipality, x <> JDict municipality) ->
        search_municipalities lower upper name uf answer = []).
Proof.
  unfold search_municipalities. split; [| split].
  - destruct answer as [[| | | | | municipalities |] |]; cbn [length]; try lia.
    destruct (filter_municipalities lower upper name uf municipalities);
      cbn [length]; [rewrite length_firstn |]; lia.
  - intros entry Hin.
    destruct answer as [[| | | | | municipalities |] |]; try destruct Hin.
    destruct (filter_municipalities lower upper name uf municipalities)
      as [filtered |] eqn:E; [| destruct Hin].
    assert (Hf : In entry filtered).
    { rewrite <- (firstn_skipn 10 filtered). apply in_or_app. now left. }
    destruct (filter_municipalities_sound name uf municipalities filtered entry E Hf)
      as (m & n & H). exists municipalities, m, n. split; [reflexivity | exact H].
  - intros municipalities x -> Hin Hx.
    now rewrite (filter_municipalities_malformed name uf municipalities x Hin Hx).
Qed.

End Search.

Lemma search_municipalities_sound_witness :
  search_municipalities (fun s => s) (fun s => s) "Ita" (Some "RJ")
    (Some (JList [ JDict [ ("id", JInt 3302205); ("nome", JStr "Itaperuna");
                           ("UF", JDict [("sigla", JStr "RJ")]) ];
                   JNull ]))
  = [].
Proof.
  apply (proj2 (proj2
           (search_municipalities_sound (fun s => s) (fun s => s) "Ita" (Some "RJ")
              (Some (JList [ JDict [ ("id", JInt 3302205); ("nome", JStr "Itaperuna");
                                     ("UF", JDict [("sigla", JStr "RJ")]) ];
                             JNull ]))))
           [ JDict [ ("id", JInt 3302205); ("nome", JStr "Itaperuna");
                     ("UF", JDict [("sigla", JStr "RJ")]) ];
             JNull ] JNull).
  - reflexivity.
  - right. now left.
  - discriminate.
Defined.

End IbgeSearchFacts.

Module RecommendationsFacts.
Import Scoring Analysis Recommendations.
Open Scope Q_scope.

Lemma Qlt_bool_iff (x y : Q) : Qlt_bool x y = true <-> x < y.
Proof.
  unfold Qlt_bool. rewrite negb_true_iff. split.
  - apply ProximityFacts.Qle_bool_false_lt.
  - intros H. apply not_true_is_false. rewrite Qle_bool_iff. lra.
Qed.

Lemma key_le_spec (a b : recommendation) :
  key_le a b = true <->
  r_priority a < r_priority b
  \/ (r_priority a == r_priority b /\ r_current_score b <= r_current_score a).
Proof.
  unfold key_le. destruct (Qeq_bool (r_priority a) (r_priority b)) eqn:E.
  - apply Qeq_bool_iff in E. rewrite Qle_bool_iff. split.
    + intros H. right. split; [assumption | lra].
    + intros [H | [_ H]]; lra.
  - apply Qeq_bool_neq in E. rewrite Qle_bool_iff. split.
    + intros H. left. apply Qle_lteq in H as [H | H]; [assumption | contradiction].
    + intros [H | [H _]]; [lra | contradiction].
Qed.

Lemma insert_desc_perm (x : recommendation) (l : list recommendation) :
  Permutation (x :: l) (insert_desc x l).
Proof.
  induction l as [| y l IH]; simpl; [reflexivity |].
  destruct (key_le y x); [reflexivity |].
  rewrite perm_swap. now apply perm_skip.
Qed.

Lemma sort_desc_perm (l : list recommendation) : Permutation l (sort_desc l).
Proof.
  induction l as [| x l IH]; simpl; [reflexivity |].
  rewrite <- insert_desc_perm. now apply perm_skip.
Qed.

Lemma key_le_total (a b : recommendation) :
  key_le a b = false -> key_le b a = true.
Proof.
  intros H. apply key_le_spec.
  assert (N : ~ (r_priority a < r_priority b
                 \/ (r_priority a == r_priority b
                     /\ r_current_score b <= r_current_score a))).
  { intros H'. apply key_le_spec in H'. congruence. }
  destruct (Q_dec (r_priority a) (r_priority b)) as [[Hlt | Hgt] | Heq].
  - exfalso. apply N. now left.
  - now left.
  - right. split; [now symmetry |].
    destruct (Qlt_le_dec (r_current_score b) (r_current_score a)) as [Hs | Hs];
      [| assumption].
    exfalso. apply N. right. split; [assumption | lra].
Qed.

Lemma key_le_trans (a b c : recommendation) :
  key_le a b = true -> key_le b c = true -> key_le a c = true.
Proof.
  rewrite !key_le_spec.
  intros [H1 | [H1 H1']] [H2 | [H2 H2']];
    [left | left | left | right]; try split; lra.
Qed.

Lemma insert_desc_sorted (x : recommendation) (l : list recommendation) :
  StronglySorted before l -> StronglySorted before (insert_desc x l).
Proof.
  induction 1 as [| y l Hs IH Hy]; simpl.
  - repeat constructor.
  - destruct (key_le y x) eqn:E.
    + constructor; [now constructor |]. constructor; [exact E |].
      rewrite List.Forall_forall in *. intros z Hz. specialize (Hy z Hz).
      unfold before in *. now apply (key_le_trans z y x).
    + constructor; [exact IH |].
      rewrite List.Forall_forall in *. intros z Hz.
      apply (Permutation_in _ (Permutation_sym (insert_desc_perm x l))) in Hz.
      destruct Hz as [<- | Hz]; [| now apply Hy].
      unfold before. now apply key_le_total.
Qed.

Lemma sort_desc_sorted (l : list recommendation) :
  StronglySorted before (sort_desc l).
Proof.
  induction l as [| x l IH]; simpl; [constructor |].
  now apply insert_desc_sorted.
Qed.

Lemma before_priority (a b : recommendation) :
  before a b -> r_priority b <= r_priority a.
Proof.
  unfold before. rewrite key_le_spec. intros [H | [H _]]; lra.
Qed.

Lemma recommend_spec (category_scores : list (string * Q)) :
  (forall c s, In (c, s) category_scores -> is_category c = true) ->
  exists l,
    recommend category_scores = Some l
    /\ forall r,
         In r l <->
         exists c s w,
           In (c, s) category_scores /\ s < 7
           /\ PyDict.get infrastructure_weights c = Some w
           /\ r = {| r_category := c; r_current_score := s;
                     r_severity := if Qlt_bool s 5 then "high" else "medium";
                     r_suggestion := get_improvement_suggestion c s;
                     r_priority := w |}.
Proof.
  induction category_scores as [| [c s] rest IH]; intros Hc.
  - exists []. split; [reflexivity |]. intros r. split; [intros [] |].
    intros (? & ? & ? & [] & _).
  - destruct IH as (l & El & Hl); [intros c' s' H; apply (Hc c' s'); now right |].
    cbn [recommend]. rewrite El.
    destruct (Qlt_bool s 7) eqn:E7.
    + pose proof (Hc c s (or_introl eq_refl)) as Hw. unfold is_category in Hw.
      destruct (PyDict.get infrastructure_weights c) as [w |] eqn:Ew;
        [| discriminate].
      eexists. split; [reflexivity |]. intros r. split.
      * intros [<- | Hin].
        -- exists c, s, w. repeat split; try assumption; [now left | now apply Qlt_bool_iff].
        -- apply Hl in Hin as (c' & s' & w' & Hin & H).
           exists c', s', w'. split; [now right | exact H].
      * intros (c' & s' & w' & [E | Hin] & Hs & Hw' & ->).
        -- injection E as <- <-. left. rewrite Ew in Hw'.
           injection Hw' as <-. reflexivity.
        -- right. apply Hl. exists c', s', w'. repeat split; assumption.
    + exists l. split; [reflexivity |]. intros r. rewrite Hl. split.
      * intros (c' & s' & w' & Hin & H). exists c', s', w'. split; [now right | exact H].
      * intros (c' & s' & w' & [E | Hin] & Hs & Hw' & Hr).
        -- injection E as <- <-. apply Qlt_bool_iff in Hs. congruence.
        -- exists c', s', w'. repeat split; assumption.
Qed.

(** X26: for category scores over the seven categories, the recommendations
    endpoint lists exactly the categories scoring less than 7, each with its
    weight as priority and with severity "high" when the score is less than 5
    and "medium" otherwise, never "low"; the list is in order of
    non-increasing weight; and the strong points are the entries scoring 8 or
    more, so a category is never in both. *)
Theorem recommendations_cover_scores_below_seven (category_scores : list (string * Q)) :
  category_scores <> [] ->
  (forall c s, In (c, s) category_scores -> is_category c = true) ->
  exists out,
    get_infrastructure_recommendations category_scores = Ok out
    /\ (forall r,
          In r (rr_recommendations out) <->
          exists c s w,
            In (c, s) category_scores /\ s < 7
            /\ PyDict.get infrastructure_weights c = Some w
            /\ r = {| r_category := c; r_current_score := s;
                      r_severity := if Qlt_bool s 5 then "high" else "medium";
                      r_suggestion := get_improvement_suggestion c s;
                      r_priority := w |})
    /\ StronglySorted (fun a b => r_priority b <= r_priority a)
         (rr_recommendations out)
    /\ (forall c s, In (c, s) (rr_strong_points out) <->
                    In (c, s) category_scores /\ 8 <= s).
Proof.
  intros Hne Hc. unfold get_infrastructure_recommendations.
  destruct (recommend_spec category_scores Hc) as (l & -> & Hl).
  destruct category_scores as [| kv rest]; [contradiction |].
  eexists. split; [reflexivity |].
  cbn [rr_recommendations rr_strong_points]. split; [| split].
  - intros r. rewrite <- Hl. split; apply Permutation_in;
      [symmetry |]; apply sort_desc_perm.
  - pose proof (sort_desc_sorted l) as H.
    induction H as [| x m Hs IH Hx]; constructor; [assumption |].
    rewrite List.Forall_forall in *. intros y Hy. now apply before_priority, Hx.
  - intros c s. rewrite List.filter_In. cbn [snd]. now rewrite Qle_bool_iff.
Qed.

Lemma recommendations_cover_scores_below_seven_witness :
  exists out,
    get_infrastructure_recommendations
      [("healthcare", 4); ("education", 6); ("dining", 9)] = Ok out
    /\ (forall r,
          In r (rr_recommendations out) <->
          exists c s w,
            In (c, s) [("healthcare", 4); ("education", 6); ("dining", 9)]
            /\ s < 7
            /\ PyDict.get infrastructure_weights c = Some w
            /\ r = {| r_category := c; r_current_score := s;
                      r_severity := if Qlt_bool s 5 then "high" else "medium";
                      r_suggestion := get_improvement_suggestion c s;
                      r_priority := w |})
    /\ StronglySorted (fun a b => r_priority b <= r_priority a)
         (rr_recommendations out)
    /\ (forall c s, In (c, s) (rr_strong_points out) <->
                    In (c, s) [("healthcare", 4); ("education", 6); ("dining", 9)]
                    /\ 8 <= s).
Proof.
  apply (recommendations_cover_scores_below_seven
           [("healthcare", 4); ("education", 6); ("dining", 9)]).
  - discriminate.
  - intros c s [[= <- _] | [[= <- _] | [[= <- _] | []]]]; reflexivity.
Defined.

(** X27: for each of the seven categories, [get_improvement_suggestion]
    returns one of the three texts of that category: its "low" text for a
    score under 5, its "medium" text for a score from 5 up to 7, its "high"
    text from 7 on; for any other category it returns the generic
    "Improve <category> infrastructure". *)
Theorem improvement_suggestion_by_band (category : string) (score : Q) :
  (is_category category = false ->
   get_improvement_suggestion category score
   = "Improve " ++ category ++ " infrastructure")
  /\ (is_category category = true ->
      exists texts,
        PyDict.get suggestions category = Some texts
        /\ PyDict.keys texts = ["high"; "medium"; "low"]
        /\ PyDict.get texts
             (if Qlt_bool score 5 then "low"
              else if Qlt_bool score 7 then "medium" else "high")
           = Some (get_improvement_suggestion category score)).
Proof.
  unfold is_category, get_improvement_suggestion, PyDict.get_default.
  cbv [PyDict.get suggestions infrastructure_weights].
  repeat match goal with
         | |- context [String.eqb ?a category] =>
             destruct (String.eqb a category)
         end;
    split; intros H; try discriminate H; try reflexivity;
    eexists; (split; [reflexivity |]); (split; [reflexivity |]);
    destruct (Qlt_bool score 5); try reflexivity;
    destruct (Qlt_bool score 7); reflexivity.
Qed.

Lemma improvement_suggestion_by_band_witness :
  get_improvement_suggestion "parking" 3 = "Improve parking infrastructure".
Proof.
  apply (improvement_suggestion_by_band "parking" 3). reflexivity.
Defined.

End RecommendationsFacts.
